(** * tasteMirror backend: a shallow embedding of [backend/app/main.py]

    The module is one FastAPI handler, [analyze_profile], and the four
    helpers it calls.  Python values are embedded as the JSON values they
    come from, exceptions as a sum type threaded through a small monad that
    also records every outbound call, and the interpreter's libraries and
    the two remote services as a [runtime] record of functions.

    Strings are byte strings (the UTF-8 encoding of the Python [str]);
    [str.strip] removes the white space of [str.isspace] in that encoding,
    [str.lower] is the ASCII part of the Python method. *)

From Stdlib Require Import ZArith List String Ascii Bool.
From Stdlib Require Import DecimalString.
From Stdlib Require Import SpecFloat.
Import ListNotations.

Set Warnings "-register-all".

Local Open Scope string_scope.
Local Open Scope Z_scope.

(** ** Python floats: IEEE 754 binary64 *)

Module PyFloat.

Definition prec : Z := 53.
Definition emax : Z := 1024.

Definition float : Type := spec_float.

Definition add : float -> float -> float := SFadd prec emax.
Definition mul : float -> float -> float := SFmul prec emax.
Definition div : float -> float -> float := SFdiv prec emax.
Definition ltb : float -> float -> bool := SFltb.
Definition eqb : float -> float -> bool := SFeqb.

(** The double nearest to an integer, ties to even. *)
Definition of_Z (z : Z) : float := binary_normalize prec emax z 0 false.

(** A decimal literal [n / d] denotes the double nearest to the quotient. *)
Definition literal (n d : Z) : float := div (of_Z n) (of_Z d).

Definition f0_8 : float := Eval vm_compute in literal 8 10.
Definition f0_05 : float := Eval vm_compute in literal 5 100.
Definition f0_7 : float := Eval vm_compute in literal 7 10.
Definition f2_0 : float := Eval vm_compute in of_Z 2.

Definition is_nan (f : float) : bool :=
  match f with S754_nan => true | _ => false end.

Definition is_zero (f : float) : bool :=
  match f with S754_zero _ => true | _ => false end.

(** Python compares an [int] with a [float] exactly. *)
Definition eqb_Z (f : float) (z : Z) : bool :=
  match f with
  | S754_zero _ => z =? 0
  | S754_finite s m e =>
      let mz := cond_Zopp s (Zpos m) in
      if 0 <=? e then mz * 2 ^ e =? z else mz =? z * 2 ^ (- e)
  | _ => false
  end.

(** [min(a, b)] of two floats: the first argument unless the second is
    strictly smaller. *)
Definition min (a b : float) : float := if ltb b a then b else a.

End PyFloat.

(** ** Python values

    Every value the handler touches is a decoded JSON document or a part of
    one: the request body, the provider responses, the parsed completions. *)

Inductive json : Type :=
| JNull
| JBool (b : bool)
| JInt (z : Z)
| JFloat (f : PyFloat.float)
| JStr (s : string)
| JList (l : list json)
| JDict (d : list (string * json)).

(** A Python [dict] built by the program; keys are hashable values, kept in
    insertion order. *)
Definition pydict : Type := list (json * json).

(** ** Exceptions *)

Inductive exn : Type :=
| KeyError (key : string)
| TypeError (msg : string)
| AttributeError (msg : string)
| OverflowError (msg : string)
| HTTPException (status_code : Z) (detail : string)
| LibraryError (msg : string).

Definition outcome (A : Type) : Type := (exn + A)%type.

Definition decimal (z : Z) : string := NilZero.string_of_int (Z.to_int z).

(** [str(e)].  A [KeyError] prints the [repr] of its key (the keys raised
    here are plain identifiers); Starlette's [HTTPException] prints
    [f"{status_code}: {detail}"]. *)
Definition str_exn (e : exn) : string :=
  match e with
  | KeyError k => "'" ++ k ++ "'"
  | TypeError m => m
  | AttributeError m => m
  | OverflowError m => m
  | HTTPException c d => decimal c ++ ": " ++ d
  | LibraryError m => m
  end.

(** ** Strings *)

Module PyStr.

Definition in_range (lo hi : nat) (c : ascii) : bool :=
  let n := nat_of_ascii c in (Nat.leb lo n && Nat.leb n hi)%bool.

Definition lower_char (c : ascii) : ascii :=
  if in_range 65 90 c then ascii_of_nat (nat_of_ascii c + 32) else c.

(** [s.lower()] *)
Fixpoint lower (s : string) : string :=
  match s with
  | EmptyString => EmptyString
  | String c s' => String (lower_char c) (lower s')
  end.

Fixpoint prefixb (p s : string) : bool :=
  match p, s with
  | EmptyString, _ => true
  | String a p', String b s' => (Ascii.eqb a b && prefixb p' s')%bool
  | String _ _, EmptyString => false
  end.

(** [p in s] for two strings *)
Fixpoint contains (p s : string) : bool :=
  (prefixb p s ||
   match s with
   | EmptyString => false
   | String _ s' => contains p s'
   end)%bool.

Definition is_space (c : ascii) : bool :=
  (in_range 9 13 c || in_range 28 32 c)%bool.

Definition is_byte (n : nat) (c : ascii) : bool := Nat.eqb (nat_of_ascii c) n.

(** The white space of two bytes: U+0085 and U+00A0. *)
Definition is_space2 (a b : ascii) : bool :=
  (is_byte 194 a && (is_byte 133 b || is_byte 160 b))%bool.

(** The white space of three bytes: U+1680, U+2000 to U+200A, U+2028,
    U+2029, U+202F, U+205F and U+3000. *)
Definition is_space3 (a b c : ascii) : bool :=
  ((is_byte 225 a && is_byte 154 b && is_byte 128 c)
   || (is_byte 226 a && is_byte 128 b
       && (in_range 128 138 c || is_byte 168 c || is_byte 169 c || is_byte 175 c))
   || (is_byte 226 a && is_byte 129 b && is_byte 159 c)
   || (is_byte 227 a && is_byte 128 b && is_byte 128 c))%bool.

(** Whether [t] is one white space character of [str.isspace]. *)
Definition is_space_text (t : string) : bool :=
  match t with
  | String a EmptyString => is_space a
  | String a (String b EmptyString) => is_space2 a b
  | String a (String b (String c EmptyString)) => is_space3 a b c
  | _ => false
  end.

Fixpoint lstrip (s : string) : string :=
  match s with
  | EmptyString => EmptyString
  | String a s1 =>
      if is_space a then lstrip s1
      else
        match s1 with
        | EmptyString => s
        | String b s2 =>
            if is_space2 a b then lstrip s2
            else
              match s2 with
              | EmptyString => s
              | String c s3 => if is_space3 a b c then lstrip s3 else s
              end
        end
  end.

(** From the right: what is kept of the tail is empty or starts with the
    bytes that, with [c], may spell a white space character. *)
Fixpoint rstrip (s : string) : string :=
  match s with
  | EmptyString => EmptyString
  | String c s' =>
      let kept := String c (rstrip s') in
      if is_space_text kept then EmptyString else kept
  end.

(** [s.strip()] *)
Definition strip (s : string) : string := rstrip (lstrip s).

(** [sep.join(l)] *)
Definition join (sep : string) (l : list string) : string := String.concat sep l.

(** [list(s)]: the one-character strings of [s] *)
Fixpoint chars (s : string) : list string :=
  match s with
  | EmptyString => []
  | String c s' => String c EmptyString :: chars s'
  end.

Definition hex_digit (n : nat) : ascii :=
  match String.get n "0123456789ABCDEF" with
  | Some c => c
  | None => "0"%char
  end.

Definition always_safe (c : ascii) : bool :=
  (in_range 65 90 c || in_range 97 122 c || in_range 48 57 c
   || Ascii.eqb c "_" || Ascii.eqb c "." || Ascii.eqb c "-" || Ascii.eqb c "~")%bool.

(** [urllib.parse.quote(s)] with its default [safe='/'] *)
Fixpoint quote (s : string) : string :=
  match s with
  | EmptyString => EmptyString
  | String c s' =>
      if (always_safe c || Ascii.eqb c "/")%bool then String c (quote s')
      else
        let n := nat_of_ascii c in
        String "%" (String (hex_digit (Nat.div n 16)) (String (hex_digit (Nat.modulo n 16)) (quote s')))
  end.

End PyStr.

(** ** Outbound calls and the runtime *)

Record chat_request : Type := {
  model : string;
  prompt : string;          (* the content of the single user message *)
  temperature : PyFloat.float;
  max_tokens : Z
}.

Record http_response : Type := {
  status_code : Z;
  text : string
}.

Inductive call : Type :=
| RequestsGet (url : string) (api_key : option string)
| ChatCreate (req : chat_request).

Record date : Type := {
  year : Z;
  isoformat : string
}.

(** What the module imports.  The two remote services answer as functions
    of the request and of the calls made before it (newest first), so a
    provider may answer the same request differently each time. *)
Record runtime : Type := {
  json_loads : string -> outcome json;
  json_dumps : json -> string;
  repr : json -> string;
  getenv : string -> option string;
  date_today : list call -> date;
  requests_get : list call -> string -> option string -> outcome http_response;
  chat_completions_create : list call -> chat_request -> outcome (option string)
}.

(** ** The monad: exceptions plus the log of outbound calls *)

Definition M (A : Type) : Type := list call -> list call * outcome A.

Definition ret {A} (a : A) : M A := fun log => (log, inr a).

Definition raise {A} (e : exn) : M A := fun log => (log, inl e).

Definition bind {A B} (m : M A) (k : A -> M B) : M B :=
  fun log =>
    match m log with
    | (log', inr a) => k a log'
    | (log', inl e) => (log', inl e)
    end.

Definition lift {A} (r : outcome A) : M A := fun log => (log, r).

(** [try: m except Exception as e: h e] *)
Definition try_except {A} (m : M A) (h : exn -> M A) : M A :=
  fun log =>
    match m log with
    | (log', inl e) => h e log'
    | ok => ok
    end.

Declare Scope py_scope.
Delimit Scope py_scope with py.
Notation "x <- m ;; k" := (bind m (fun x => k))
  (at level 61, m at next level, right associativity) : py_scope.

(** The same for code that makes no call. *)
Definition rbind {A B} (r : outcome A) (k : A -> outcome B) : outcome B :=
  match r with
  | inr a => k a
  | inl e => inl e
  end.

Notation "x <~ r ;; k" := (rbind r (fun x => k))
  (at level 61, r at next level, right associativity) : py_scope.

Local Open Scope py_scope.

(** ** Operations on Python values *)

Definition type_name (v : json) : string :=
  match v with
  | JNull => "NoneType"
  | JBool _ => "bool"
  | JInt _ => "int"
  | JFloat _ => "float"
  | JStr _ => "str"
  | JList _ => "list"
  | JDict _ => "dict"
  end.

(** [bool(v)], the test behind [not v] and [if v] *)
Definition truthy (v : json) : bool :=
  match v with
  | JNull => false
  | JBool b => b
  | JInt z => negb (z =? 0)
  | JFloat f => negb (PyFloat.is_zero f)
  | JStr s => negb (String.eqb s "")
  | JList l => match l with [] => false | _ => true end
  | JDict d => match d with [] => false | _ => true end
  end.

(** The completion text is a [str] or [None]. *)
Definition truthy_content (c : option string) : bool :=
  match c with
  | None => false
  | Some s => negb (String.eqb s "")
  end.

Fixpoint lookup (k : string) (d : list (string * json)) : option json :=
  match d with
  | [] => None
  | (k', v) :: d' => if String.eqb k' k then Some v else lookup k d'
  end.

Definition has_key (k : string) (d : list (string * json)) : bool :=
  match lookup k d with Some _ => true | None => false end.

Definition no_attribute (v : json) (attr : string) : exn :=
  AttributeError ("'" ++ type_name v ++ "' object has no attribute '" ++ attr ++ "'").

(** [obj.get(k, default)] *)
Definition py_get (obj : json) (k : string) (default : json) : outcome json :=
  match obj with
  | JDict d => inr (match lookup k d with Some v => v | None => default end)
  | _ => inl (no_attribute obj "get")
  end.

(** [obj[k]] for a string [k] *)
Definition py_getitem (obj : json) (k : string) : outcome json :=
  match obj with
  | JDict d => match lookup k d with Some v => inr v | None => inl (KeyError k) end
  | JStr _ => inl (TypeError "string indices must be integers, not 'str'")
  | JList _ => inl (TypeError "list indices must be integers or slices, not str")
  | _ => inl (TypeError ("'" ++ type_name obj ++ "' object is not subscriptable"))
  end.

Definition is_str (k : string) (v : json) : bool :=
  match v with JStr s => String.eqb s k | _ => false end.

(** [k in obj] for a string [k] *)
Definition py_in (k : string) (obj : json) : outcome bool :=
  match obj with
  | JDict d => inr (has_key k d)
  | JList l => inr (existsb (is_str k) l)
  | JStr s => inr (PyStr.contains k s)
  | _ => inl (TypeError ("argument of type '" ++ type_name obj ++ "' is not iterable"))
  end.

(** The items a [for] loop over [obj] visits. *)
Definition py_iter (obj : json) : outcome (list json) :=
  match obj with
  | JList l => inr l
  | JDict d => inr (map (fun kv => JStr (fst kv)) d)
  | JStr s => inr (map JStr (PyStr.chars s))
  | _ => inl (TypeError ("'" ++ type_name obj ++ "' object is not iterable"))
  end.

(** [v.lower()] *)
Definition py_lower (v : json) : outcome string :=
  match v with
  | JStr s => inr (PyStr.lower s)
  | _ => inl (no_attribute v "lower")
  end.

(** [str(v)] as an f-string writes it: a [str] is itself, anything else is
    its [repr]. *)
Definition format_value (rt : runtime) (v : json) : string :=
  match v with
  | JStr s => s
  | _ => repr rt v
  end.

Definition format_env (v : option string) : string :=
  match v with
  | Some s => s
  | None => "None"
  end.

(** Dictionary keys must be hashable. *)
Definition py_hash_check (k : json) : outcome unit :=
  match k with
  | JList _ | JDict _ => inl (TypeError ("unhashable type: '" ++ type_name k ++ "'"))
  | _ => inr tt
  end.

Definition numeric (v : json) : option (Z + PyFloat.float) :=
  match v with
  | JBool b => Some (inl (Z.b2z b))
  | JInt z => Some (inl z)
  | JFloat f => Some (inr f)
  | _ => None
  end.

(** [a == b] on hashable values, as dictionary lookup uses it.  The decoder
    hands out one shared [NaN] object, which a dictionary finds by
    identity. *)
Definition key_eqb (a b : json) : bool :=
  match a, b with
  | JNull, JNull => true
  | JStr s, JStr t => String.eqb s t
  | _, _ =>
      match numeric a, numeric b with
      | Some (inl x), Some (inl y) => x =? y
      | Some (inl x), Some (inr g) => PyFloat.eqb_Z g x
      | Some (inr f), Some (inl y) => PyFloat.eqb_Z f y
      | Some (inr f), Some (inr g) =>
          (PyFloat.eqb f g || (PyFloat.is_nan f && PyFloat.is_nan g))%bool
      | _, _ => false
      end
  end.

(** [d[k] = v]: an existing key keeps its place and its key object. *)
Fixpoint dict_set (k v : json) (d : pydict) : pydict :=
  match d with
  | [] => [(k, v)]
  | (k', v') :: d' =>
      if key_eqb k' k then (k', v) :: d' else (k', v') :: dict_set k v d'
  end.

Definition keys (d : pydict) : list json := map fst d.

(** [int.__float__]: the nearest double, or [OverflowError]. *)
Definition float_of_int (z : Z) : outcome PyFloat.float :=
  match PyFloat.of_Z z with
  | S754_infinity _ => inl (OverflowError "int too large to convert to float")
  | f => inr f
  end.

(** [v * c] for a float constant [c] *)
Definition py_mul_float (v : json) (c : PyFloat.float) : outcome PyFloat.float :=
  match v with
  | JInt z => f <~ float_of_int z ;; inr (PyFloat.mul f c)
  | JBool b => f <~ float_of_int (Z.b2z b) ;; inr (PyFloat.mul f c)
  | JFloat f => inr (PyFloat.mul f c)
  | JStr _ | JList _ =>
      inl (TypeError "can't multiply sequence by non-int of type 'float'")
  | _ =>
      inl (TypeError ("unsupported operand type(s) for *: '" ++ type_name v ++ "' and 'float'"))
  end.

(** [quote(query)] accepts a [str] only (the handler never passes bytes). *)
Definition py_quote (query : json) : outcome string :=
  match query with
  | JStr s => inr (PyStr.quote s)
  | _ => inl (TypeError "quote_from_bytes() expected bytes")
  end.

Definition newline : string := String "010"%char EmptyString.

Definition unlines (l : list string) : string := String.concat newline l.

(** ** The module *)

Definition LANGUAGE_MAPPING : list (string * string) :=
  [ ("en", "English");
    ("tr", "Turkish");
    ("es", "Spanish");
    ("fr", "French");
    ("de", "German");
    ("hi", "Hindi");
    ("zh", "Chinese");
    ("it", "Italian") ].

Fixpoint mapping_get (k : string) (d : list (string * string)) (default : string) : string :=
  match d with
  | [] => default
  | (k', v) :: d' => if String.eqb k' k then v else mapping_get k d' default
  end.

(** [LANGUAGE_MAPPING.get(language, "English")] *)
Definition target_language_of (language : json) : outcome string :=
  match language with
  | JStr code => inr (mapping_get code LANGUAGE_MAPPING "English")
  | JList _ | JDict _ => inl (TypeError ("unhashable type: '" ++ type_name language ++ "'"))
  | _ => inr "English"
  end.

(** The f-string of [generate_cultural_map_insights], line by line. *)
Definition cultural_prompt (target_language : string) (countries : list string) : string :=
  unlines
    [ "";
      "    CRITICAL INSTRUCTION: You MUST respond ENTIRELY in " ++ target_language ++ " language.";
      "    ALL cultural insights and recommendations must be in " ++ target_language ++ ".";
      "    ";
      "    For each of the following countries, return a JSON array of objects.";
      "    Each object should include:";
      "    - country (string) - country name can be in original language";
      "    - culturalInsight (1-2 sentences about the culture) - MUST be in " ++ target_language;
      "    - recommendation (a film, artist, or brand that represents it) - MUST be in " ++ target_language;
      "";
      "    Countries: " ++ PyStr.join ", " countries;
      "";
      "    FINAL REMINDER: All descriptions and recommendations must be in " ++ target_language ++ ".";
      "    Only respond with a valid JSON list.";
      "    " ].

(** The f-string of [generate_persona_from_taste]; [suggestions] stands for
    [qloo_suggestions if qloo_suggestions else "None available"]. *)
Definition persona_prompt (target_language movies music brands gender suggestions variation_seed : string) : string :=
  unlines
    [ "";
      "    CRITICAL INSTRUCTION: You MUST respond ENTIRELY in " ++ target_language ++ " language. ";
      "    EVERY SINGLE TEXT FIELD must be in " ++ target_language ++ ", including:";
      "    - personaName";
      "    - description  ";
      "    - traits (all 3 items)";
      "    - insights.likelyInterests";
      "    - insights.likelyBehaviors";
      "    - therapySuggestion.summary";
      "    - therapySuggestion.recommendation";
      "    - therapySuggestion.dailyTip";
      "    - archetype.name";
      "    - archetype.description";
      "    - culturalDNAScore (region names as keys - MUST be in " ++ target_language ++ ")";
      "";
      "    User preferences:";
      "    - Favorite Movies: " ++ movies;
      "    - Favorite Music: " ++ music;
      "    - Favorite Brands: " ++ brands;
      "    - Gender: " ++ gender;
      "    - Qloo cultural suggestions: " ++ suggestions;
      "    - Variation seed: " ++ variation_seed;
      "";
      "    Return a JSON with:";
      "    - personaName (string) - MUST be in " ++ target_language;
      "    - description (1-2 sentence string) - MUST be in " ++ target_language;
      "    - traits (list of 3 strings) - MUST be in " ++ target_language;
      "    - insights (object with:";
      "        likelyInterests (string) - MUST be in " ++ target_language ++ ",";
      "        likelyBehaviors (string) - MUST be in " ++ target_language;
      "    )";
      "    - culturalTwin (string) - ONLY the famous person's name, no description or parentheses, can be in original language";
      "    - therapySuggestion (object with:";
      "        summary (string) - MUST be in " ++ target_language ++ ",";
      "        recommendation (string) - MUST be in " ++ target_language ++ ",";
      "        resources (list of 1–2 URLs or names),";
      "        dailyTip (string) - MUST be in " ++ target_language;
      "    )";
      "    - culturalDNAScore (object with region names as keys and % scores as values, max 4 regions) - REGION NAMES MUST be in " ++ target_language;
      "    - archetype (object with name and 1-sentence description - BOTH MUST be in " ++ target_language ++ ")";
      "";
      "    FINAL REMINDER: EVERYTHING must be in " ++ target_language ++ " except for the culturalTwin which should be ONLY the person's name (no description, no parentheses) and can remain in its original language.";
      "    Be creative and vary the result slightly each time using the variation seed.";
      "    Only respond with valid JSON.";
      "    " ].

(** ** The functions of the module *)

Section Backend.

Variable rt : runtime.

(** [client.chat.completions.create(...).choices[0].message.content] *)
Definition chat (req : chat_request) : M (option string) :=
  fun log => (ChatCreate req :: log, chat_completions_create rt log req).

(** [requests.get(url, headers={"x-api-key": key})] *)
Definition http_get (url : string) (key : option string) : M http_response :=
  fun log => (RequestsGet url key :: log, requests_get rt log url key).

(** [date.today()] *)
Definition today : M date := fun log => (log, inr (date_today rt log)).

(** [response.json()] *)
Definition response_json (response : http_response) : outcome json :=
  json_loads rt (text response).

(** [{item["country"]: item for item in parsed if "country" in item}],
    one item at a time. *)
Fixpoint country_items (items : list json) (acc : pydict) : outcome pydict :=
  match items with
  | [] => inr acc
  | item :: rest =>
      c <~ py_in "country" item ;;
      if c then
        k <~ py_getitem item "country" ;;
        _ <~ py_hash_check k ;;
        country_items rest (dict_set k item acc)
      else country_items rest acc
  end.

(** The comprehension of line 84: iterate [parsed], then fill the dict. *)
Definition country_comprehension (parsed : json) : outcome pydict :=
  items <~ py_iter parsed ;;
  country_items items [].

(** [generate_cultural_map_insights], lines 47-87.  The [try] holds no
    call, so its [except] is a match on the outcome of its body. *)
Definition generate_cultural_map_insights
    (countries : list string) (language : json) : M pydict :=
  match countries with
  | [] => ret []
  | _ =>
      target_language <- lift (target_language_of language) ;;
      let prompt := cultural_prompt target_language countries in
      content <- chat {| model := "gpt-4"; prompt := prompt;
                         temperature := PyFloat.f0_7; max_tokens := 800 |} ;;
      match content with
      | Some text_ =>
          if truthy_content content then
            match (parsed <~ json_loads rt text_ ;; country_comprehension parsed) with
            | inr d => ret d
            | inl _ => ret []
            end
          else ret []
      | None => ret []
      end
  end.

(** The loop of [autocomplete_entity]: the first candidate whose lowered
    type contains [entity_type] ends it. *)
Fixpoint first_match (results : list json) (entity_type : string) : outcome json :=
  match results with
  | [] => inr JNull
  | r :: rest =>
      t <~ py_get r "type" (JStr "") ;;
      lowered <~ py_lower t ;;
      if PyStr.contains entity_type lowered then py_get r "id" (JStr "")
      else first_match rest entity_type
  end.

(** [autocomplete_entity], lines 90-107 *)
Definition autocomplete_entity (query : json) (entity_type : string) : M json :=
  let base_url := getenv rt "QLOO_API_URL" in
  let key := getenv rt "QLOO_API_KEY" in
  safe_query <- lift (py_quote query) ;;
  let url := format_env base_url ++ "/v1/autocomplete?query=" ++ safe_query in
  response <- http_get url key ;;
  if status_code response =? 200 then
    lift (data <~ response_json response ;;
          results <~ py_get data "results" (JList []) ;;
          items <~ py_iter results ;;
          first_match items entity_type)
  else ret JNull.

(** [[i.get("name", "Unknown") for i in items if "name" in i]] *)
Fixpoint trending_names (items : list json) : outcome (list json) :=
  match items with
  | [] => inr []
  | i :: rest =>
      c <~ py_in "name" i ;;
      if c then
        n <~ py_get i "name" (JStr "Unknown") ;;
        ns <~ trending_names rest ;;
        inr (n :: ns)
      else trending_names rest
  end.

(** [get_qloo_trending], lines 110-137 *)
Definition get_qloo_trending (entity_id : json) (entity_type : string) : M (list json) :=
  if negb (truthy entity_id) then ret []
  else
    let base_url := getenv rt "QLOO_API_URL" in
    let key := getenv rt "QLOO_API_KEY" in
    today_ <- today ;;
    let start_date := decimal (year today_) ++ "-01-01" in
    let end_date := isoformat today_ in
    let url :=
      format_env base_url ++ "/v2/trending?" ++
      "filter.start_date=" ++ start_date ++ "&" ++
      "filter.end_date=" ++ end_date ++ "&" ++
      "filter.type=urn:entity:" ++ entity_type ++ "&" ++
      "signal.interests.entities=" ++ format_value rt entity_id in
    response <- http_get url key ;;
    if status_code response =? 200 then
      lift (data <~ response_json response ;;
            results <~ py_get data "results" (JList []) ;;
            items <~ py_iter results ;;
            trending_names items)
    else ret [].

(** [base_temperature] and [capped_temperature], lines 189-190 *)
Definition capped_temperature (variation_seed : json) : outcome PyFloat.float :=
  scaled <~ py_mul_float variation_seed PyFloat.f0_05 ;;
  let base_temperature := PyFloat.add PyFloat.f0_8 scaled in
  inr (PyFloat.min base_temperature PyFloat.f2_0).

(** [generate_persona_from_taste], lines 140-204 *)
Definition generate_persona_from_taste
    (movies music brands gender : json) (qloo_suggestions : list json)
    (language variation_seed : json) : M string :=
  target_language <- lift (target_language_of language) ;;
  let prompt :=
    persona_prompt target_language
      (format_value rt movies) (format_value rt music)
      (format_value rt brands) (format_value rt gender)
      (if truthy (JList qloo_suggestions) then repr rt (JList qloo_suggestions)
       else "None available")
      (format_value rt variation_seed) in
  capped <- lift (capped_temperature variation_seed) ;;
  content <- chat {| model := "gpt-4"; prompt := prompt;
                     temperature := capped; max_tokens := 800 |} ;;
  match content with
  | Some text_ =>
      if truthy_content content then ret (PyStr.strip text_)
      else raise (HTTPException 500 "GPT returned empty response")
  | None => raise (HTTPException 500 "GPT returned empty response")
  end.

(** The dictionary [analyze_profile] returns. *)
Record payload : Type := {
  result : string;
  culturalTwin : json;
  countryInsights : pydict
}.

Definition sample_countries : list string := ["USA"; "South Korea"; "UK"; "Japan"].

(** The body of the [try] of [analyze_profile], lines 210-248.  The handler
    reads the raw JSON body; the [FormData] model the module declares
    validates nothing. *)
Definition analyze_profile_body (request_json : outcome json) : M payload :=
  body <- lift request_json ;;
  variation <- lift (py_get body "variation" (JInt 0)) ;;
  language <- lift (py_get body "language" (JStr "en")) ;;
  music_query <- lift (py_getitem body "music") ;;
  music_id <- autocomplete_entity music_query "artist" ;;
  movie_query <- lift (py_getitem body "movies") ;;
  movie_id <- autocomplete_entity movie_query "movie" ;;
  brand_query <- lift (py_getitem body "brands") ;;
  brand_id <- autocomplete_entity brand_query "brand" ;;
  music_trends <- get_qloo_trending music_id "artist" ;;
  movie_trends <- get_qloo_trending movie_id "movie" ;;
  brand_trends <- get_qloo_trending brand_id "brand" ;;
  let qloo_suggestions := (music_trends ++ movie_trends ++ brand_trends)%list in
  movies <- lift (py_getitem body "movies") ;;
  music <- lift (py_getitem body "music") ;;
  brands <- lift (py_getitem body "brands") ;;
  gender <- lift (py_getitem body "gender") ;;
  ai_result <- generate_persona_from_taste movies music brands gender
                 qloo_suggestions language variation ;;
  parsed <- lift (json_loads rt ai_result) ;;
  country_insights <- generate_cultural_map_insights sample_countries language ;;
  let dumped := json_dumps rt parsed in
  twin <- lift (py_get parsed "culturalTwin" (JStr "Unknown")) ;;
  ret {| result := dumped; culturalTwin := twin; countryInsights := country_insights |}.

(** [analyze_profile], lines 208-252: every exception becomes an
    [HTTPException] with status 500. *)
Definition analyze_profile (request_json : outcome json) : M payload :=
  try_except (analyze_profile_body request_json)
    (fun e => raise (HTTPException 500 ("Analysis failed: " ++ str_exn e))).

(** The arguments [analyze_profile] has evaluated when it calls
    [generate_persona_from_taste] (lines 210-237). *)
Record persona_arguments : Type := {
  arg_movies : json;
  arg_music : json;
  arg_brands : json;
  arg_gender : json;
  arg_qloo_suggestions : list json;
  arg_language : json;
  arg_variation_seed : json
}.

Definition persona_call_arguments (request_json : outcome json) : M persona_arguments :=
  body <- lift request_json ;;
  variation <- lift (py_get body "variation" (JInt 0)) ;;
  language <- lift (py_get body "language" (JStr "en")) ;;
  music_query <- lift (py_getitem body "music") ;;
  music_id <- autocomplete_entity music_query "artist" ;;
  movie_query <- lift (py_getitem body "movies") ;;
  movie_id <- autocomplete_entity movie_query "movie" ;;
  brand_query <- lift (py_getitem body "brands") ;;
  brand_id <- autocomplete_entity brand_query "brand" ;;
  music_trends <- get_qloo_trending music_id "artist" ;;
  movie_trends <- get_qloo_trending movie_id "movie" ;;
  brand_trends <- get_qloo_trending brand_id "brand" ;;
  movies <- lift (py_getitem body "movies") ;;
  music <- lift (py_getitem body "music") ;;
  brands <- lift (py_getitem body "brands") ;;
  gender <- lift (py_getitem body "gender") ;;
  ret {| arg_movies := movies; arg_music := music; arg_brands := brands;
         arg_gender := gender;
         arg_qloo_suggestions := (music_trends ++ movie_trends ++ brand_trends)%list;
         arg_language := language; arg_variation_seed := variation |}.

Definition call_persona (a : persona_arguments) : M string :=
  generate_persona_from_taste (arg_movies a) (arg_music a) (arg_brands a)
    (arg_gender a) (arg_qloo_suggestions a) (arg_language a) (arg_variation_seed a).

(** The handler up to and including [parsed = json.loads(ai_result)]
    (lines 210-238): the language and the parsed persona. *)
Definition persona_stage (request_json : outcome json) : M (json * json) :=
  a <- persona_call_arguments request_json ;;
  ai_result <- call_persona a ;;
  parsed <- lift (json_loads rt ai_result) ;;
  ret (arg_language a, parsed).

(** The rest of the [try] (lines 241-248). *)
Definition insights_stage (language parsed : json) : M payload :=
  country_insights <- generate_cultural_map_insights sample_countries language ;;
  let dumped := json_dumps rt parsed in
  twin <- lift (py_get parsed "culturalTwin" (JStr "Unknown")) ;;
  ret {| result := dumped; culturalTwin := twin; countryInsights := country_insights |}.

(** The request the Cultural Map Synthesizer sends. *)
Definition cultural_request (target_language : string) (countries : list string)
    : chat_request :=
  {| model := "gpt-4"; prompt := cultural_prompt target_language countries;
     temperature := PyFloat.f0_7; max_tokens := 800 |}.

(** The request the Persona Synthesizer sends. *)
Definition persona_request (target_language : string) (a : persona_arguments)
    (capped : PyFloat.float) : chat_request :=
  {| model := "gpt-4";
     prompt :=
       persona_prompt target_language
         (format_value rt (arg_movies a)) (format_value rt (arg_music a))
         (format_value rt (arg_brands a)) (format_value rt (arg_gender a))
         (if truthy (JList (arg_qloo_suggestions a))
          then repr rt (JList (arg_qloo_suggestions a))
          else "None available")
         (format_value rt (arg_variation_seed a));
     temperature := capped; max_tokens := 800 |}.

(** The URLs of the two taste-graph requests. *)
Definition autocomplete_url (query : string) : string :=
  format_env (getenv rt "QLOO_API_URL") ++ "/v1/autocomplete?query=" ++ PyStr.quote query.

Definition trending_url (today_ : date) (entity_id : json) (entity_type : string) : string :=
  let start_date := decimal (year today_) ++ "-01-01" in
  let end_date := isoformat today_ in
  format_env (getenv rt "QLOO_API_URL") ++ "/v2/trending?" ++
  "filter.start_date=" ++ start_date ++ "&" ++
  "filter.end_date=" ++ end_date ++ "&" ++
  "filter.type=urn:entity:" ++ entity_type ++ "&" ++
  "signal.interests.entities=" ++ format_value rt entity_id.

End Backend.

(** ** The specification's vocabulary *)

(** The language codes the specification lists. *)
Definition recognised_codes : list string :=
  ["en"; "tr"; "es"; "fr"; "de"; "hi"; "zh"; "it"].

(** The display name the specification gives each code. *)
Definition display_language (code : string) : string :=
  if String.eqb code "en" then "English"
  else if String.eqb code "tr" then "Turkish"
  else if String.eqb code "es" then "Spanish"
  else if String.eqb code "fr" then "French"
  else if String.eqb code "de" then "German"
  else if String.eqb code "hi" then "Hindi"
  else if String.eqb code "zh" then "Chinese"
  else if String.eqb code "it" then "Italian"
  else "English".


(** [t] contains [c] up to the case of its letters. *)
Definition contains_ignoring_case (c t : string) : Prop :=
  exists before part after,
    t = before ++ part ++ after /\ PyStr.lower part = PyStr.lower c.

(** A candidate of the autocomplete response: an object whose [type], when
    present, is a string. *)
Definition candidate (r : json) : Prop :=
  exists d, r = JDict d /\
    (lookup "type" d = None \/ exists t, lookup "type" d = Some (JStr t)).

Definition reported_type (r : json) : string :=
  match r with
  | JDict d => match lookup "type" d with Some (JStr t) => t | _ => "" end
  | _ => ""
  end.

(** The identifier of a candidate: its [id], the empty string without one. *)
Definition identifier (r : json) : json :=
  match r with
  | JDict d => match lookup "id" d with Some v => v | None => JStr "" end
  | _ => JStr ""
  end.

Definition candidate_matches (category : string) (r : json) : Prop :=
  contains_ignoring_case category (reported_type r).

(** The [name] of every item that has one, in order. *)
Fixpoint names_of (items : list (list (string * json))) : list json :=
  match items with
  | [] => []
  | i :: rest =>
      match lookup "name" i with
      | Some n => n :: names_of rest
      | None => names_of rest
      end
  end.

(** The required fields, in the order the handler reads them. *)
Definition required_fields : list string := ["music"; "movies"; "brands"; "gender"].

Definition first_missing (d : list (string * json)) : option string :=
  find (fun k => negb (has_key k d)) required_fields.

Definition values (d : list (string * json)) : list json := map snd d.

(** The [country] field of an item of a parsed completion. *)
Definition country_of (item : json) : option json :=
  match item with
  | JDict d => lookup "country" d
  | _ => None
  end.

(** The keys of a country mapping are [country] values of the items of a
    completion the Cultural Map Synthesizer received for [sample_countries]
    and parsed, unless the mapping is empty; and they are among the
    countries asked for when those items name no other country. *)
Definition keys_from_completion (rt : runtime) (d : pydict) : Prop :=
  d = [] \/
  exists hist lang text_ parsed items,
    chat_completions_create rt hist (cultural_request lang sample_countries)
      = inr (Some text_) /\
    json_loads rt text_ = inr parsed /\
    py_iter parsed = inr items /\
    (forall k, In k (keys d) ->
       exists item, In item items /\ country_of item = Some k) /\
    ((forall item c, In item items -> country_of item = Some c ->
        In c (map JStr sample_countries)) ->
     forall k, In k (keys d) -> In k (map JStr sample_countries)).

(** A completion the Cultural Map Synthesizer cannot use: none, empty, or
    text that [json.loads] rejects. *)
Definition unusable (rt : runtime) (content : option string) : Prop :=
  content = None \/ content = Some "" \/
  exists text_ e, content = Some text_ /\ json_loads rt text_ = inl e.

(** Whether the [n] seeds from [v] on all give the temperature [t]. *)
Fixpoint seeds_give (t : PyFloat.float) (v : Z) (n : nat) : bool :=
  match n with
  | O => true
  | S n' =>
      match capped_temperature (JInt v) with
      | inr t' => (PyFloat.eqb t' t && seeds_give t (v + 1) n')%bool
      | inl _ => false
      end
  end.


(** ** A concrete runtime

    Enough of Python to run the handler on sample requests: a printer and a
    decoder for the documents listed below, a taste-graph provider that
    knows two queries, and a completion service given as a parameter. *)

Module Demo.

Definition dq : string := String "034"%char EmptyString.

Definition quoted (q s : string) : string := q ++ s ++ q.

(** Prints documents whose strings need no escape and that hold no float. *)
Fixpoint print (q null true_ false_ : string) (v : json) : string :=
  match v with
  | JNull => null
  | JBool b => if b then true_ else false_
  | JInt z => decimal z
  | JFloat _ => "NaN"
  | JStr s => quoted q s
  | JList l => "[" ++ String.concat ", " (map (print q null true_ false_) l) ++ "]"
  | JDict d =>
      "{" ++ String.concat ", "
               (map (fun kv => let '(k, x) := kv in
                               quoted q k ++ ": " ++ print q null true_ false_ x) d)
          ++ "}"
  end.

(** [json.dumps] and [repr] on such documents *)
Definition dumps : json -> string := print dq "null" "true" "false".
Definition py_repr : json -> string := print "'" "None" "True" "False".

Definition artist_candidates : json :=
  JDict [("results",
          JList [ JDict [("type", JStr "urn:entity:place"); ("id", JStr "P0")];
                  JDict [("type", JStr "urn:entity:Artist"); ("id", JStr "A1")];
                  JDict [("type", JStr "urn:entity:artist"); ("id", JStr "A2")] ])].

Definition movie_candidates : json :=
  JDict [("results", JList [ JDict [("type", JStr "urn:entity:movie")] ])].

Definition trending_items : json :=
  JDict [("results",
          JList [ JDict [("name", JStr "Justice")];
                  JDict [("id", JStr "X")];
                  JDict [("name", JStr "Air")] ])].

Definition persona : json := JDict [("personaName", JStr "The Dreamer")].

Definition france : json :=
  JDict [("country", JStr "France");
         ("culturalInsight", JStr "Cafe culture");
         ("recommendation", JStr "Amelie")].

Definition insights : json := JList [france].

Definition documents : list json :=
  [artist_candidates; movie_candidates; trending_items; persona; insights].

(** [json.loads] on the texts of [documents]; any other text used below is
    not JSON. *)
Definition loads (s : string) : outcome json :=
  match find (fun v => String.eqb (dumps v) s) documents with
  | Some v => inr v
  | None => inl (LibraryError "Expecting value: line 1 column 1 (char 0)")
  end.

Definition ok (v : json) : outcome http_response :=
  inr {| status_code := 200; text := dumps v |}.

Definition unavailable : outcome http_response :=
  inr {| status_code := 503; text := "Service Unavailable" |}.

(** The taste-graph provider. *)
Definition provider (log : list call) (url : string) (key : option string)
    : outcome http_response :=
  if PyStr.contains "/v1/autocomplete?query=Daft%20Punk" url then ok artist_candidates
  else if PyStr.contains "/v1/autocomplete?query=Inception" url then ok movie_candidates
  else if PyStr.contains "/v2/trending?" url then ok trending_items
  else unavailable.

Definition offline (log : list call) (url : string) (key : option string)
    : outcome http_response := unavailable.

Definition is_chat (c : call) : bool :=
  match c with ChatCreate _ => true | _ => false end.

(** A completion service: [first] answers the first completion of a run,
    [second] the ones after it. *)
Definition completions (first second : option string)
    (log : list call) (req : chat_request) : outcome (option string) :=
  if existsb is_chat log then inr second else inr first.

Definition runtime_with
    (get : list call -> string -> option string -> outcome http_response)
    (chat : list call -> chat_request -> outcome (option string)) : runtime :=
  {| json_loads := loads;
     json_dumps := dumps;
     repr := py_repr;
     getenv := fun name =>
       if String.eqb name "QLOO_API_URL" then Some "https://qloo.example"
       else if String.eqb name "QLOO_API_KEY" then Some "secret"
       else None;
     date_today := fun _ => {| year := 2025; isoformat := "2025-07-19" |};
     requests_get := get;
     chat_completions_create := chat |}.

Definition persona_text : string := " " ++ dumps persona ++ newline.

(** Both completions arrive; the second names a country nobody asked for. *)
Definition talkative : runtime :=
  runtime_with provider (completions (Some persona_text) (Some (dumps insights))).

(** The persona completion is empty. *)
Definition silent : runtime :=
  runtime_with provider (completions None None).

Definition blank : runtime :=
  runtime_with provider (completions (Some "") (Some "")).

(** The country completion is not JSON. *)
Definition rambling : runtime :=
  runtime_with provider
    (completions (Some persona_text) (Some "Sorry, here are some thoughts instead.")).

(** The country completion is empty. *)
Definition halfway : runtime :=
  runtime_with provider (completions (Some persona_text) None).

(** The taste graph is down. *)
Definition disconnected : runtime :=
  runtime_with offline (completions (Some persona_text) (Some (dumps insights))).

Definition body : list (string * json) :=
  [ ("movies", JStr "Inception"); ("music", JStr "Daft Punk");
    ("brands", JStr "Nike"); ("gender", JStr "male"); ("language", JStr "fr") ].

Definition body_without_gender : list (string * json) :=
  [ ("movies", JStr "Inception"); ("music", JStr "Daft Punk");
    ("brands", JStr "Nike") ].

Definition body_with_seed (v : Z) : list (string * json) :=
  body ++ [("variation", JInt v)].

End Demo.

(** ** Further vocabulary *)

(** The fields the handler sends to the Entity Resolver, each with the
    category it is resolved in. *)
Definition query_fields : list (string * string) :=
  [("music", "artist"); ("movies", "movie"); ("brands", "brand")].

(** The exception [e] was raised, leaving the log [log1], by the Entity
    Resolver on a query field of the body [d] or by the Trend Fetcher. *)
Definition raised_by_taste_graph (rt : runtime) (d : list (string * json))
    (e : exn) (log1 : list call) : Prop :=
  (exists field category q l,
      In (field, category) query_fields /\ lookup field d = Some q /\
      autocomplete_entity rt q category l = (log1, inl e)) \/
  (exists id category l, get_qloo_trending rt id category l = (log1, inl e)).

(** The request, if any, that the Trend Fetcher sends for [entity_id]
    after the calls [log]. *)
Definition trending_request (rt : runtime) (log : list call)
    (entity_id : json) (category : string) : list call :=
  if truthy entity_id
  then [RequestsGet (trending_url rt (date_today rt log) entity_id category)
          (getenv rt "QLOO_API_KEY")]
  else [].

Definition is_requests_get (c : call) : bool :=
  match c with RequestsGet _ _ => true | ChatCreate _ => false end.

(** The items on which the comprehension of line 84 raises: a scalar that
    is no container, a string or a list that holds "country" (the test
    succeeds and the subscript fails), an object whose [country] cannot be
    hashed. *)
Definition breaks_comprehension (item : json) : bool :=
  match item with
  | JDict d =>
      match lookup "country" d with
      | Some (JList _) | Some (JDict _) => true
      | _ => false
      end
  | JList l => existsb (is_str "country") l
  | JStr s => PyStr.contains "country" s
  | _ => true
  end.

(** [d.get(k)] on a dictionary the program built. *)
Fixpoint dict_get (k : json) (d : pydict) : option json :=
  match d with
  | [] => None
  | (k', v) :: d' => if key_eqb k' k then Some v else dict_get k d'
  end.

(** An item of the shape the prompt asks for: an object whose [country],
    when present, is a string. *)
Definition plain_item (item : json) : Prop :=
  exists d, item = JDict d /\
    (lookup "country" d = None \/ exists c, lookup "country" d = Some (JStr c)).

Definition names_country (c : string) (item : json) : bool :=
  match country_of item with
  | Some (JStr c') => String.eqb c' c
  | _ => false
  end.

(** The last item that names the country [c]. *)
Fixpoint last_named (c : string) (items : list json) : option json :=
  match items with
  | [] => None
  | item :: rest =>
      match last_named c rest with
      | Some found => Some found
      | None => if names_country c item then Some item else None
      end
  end.

Fixpoint all_chars (p : ascii -> bool) (s : string) : bool :=
  match s with
  | EmptyString => true
  | String c s' => (p c && all_chars p s')%bool
  end.

(** The characters [quote] lets through or produces. *)
Definition url_safe (c : ascii) : bool :=
  (PyStr.always_safe c || Ascii.eqb c "/" || Ascii.eqb c "%")%bool.

(** ** More runtimes *)

Module Cases.

Definition mixed_insights : json := JList [Demo.france; JInt 5].

Definition documents : list json := [JList []; mixed_insights].

(** [json.loads] on the texts of [Demo.documents] and of [documents]. *)
Definition loads (s : string) : outcome json :=
  match find (fun v => String.eqb (Demo.dumps v) s) documents with
  | Some v => inr v
  | None => Demo.loads s
  end.

Definition runtime_with
    (get : list call -> string -> option string -> outcome http_response)
    (chat : list call -> chat_request -> outcome (option string)) : runtime :=
  {| json_loads := loads;
     json_dumps := Demo.dumps;
     repr := Demo.py_repr;
     getenv := getenv Demo.talkative;
     date_today := date_today Demo.talkative;
     requests_get := get;
     chat_completions_create := chat |}.

(** The persona completion is prose. *)
Definition chatty : runtime :=
  runtime_with Demo.provider
    (Demo.completions (Some "I would rather describe you in words.") None).




(** The persona completion is wrapped in no-break spaces (U+00A0) and ends
    with an em space (U+2003). *)
Definition nbsp : string := String "194"%char (String "160"%char EmptyString).

Definition em_space : string :=
  String "226"%char (String "128"%char (String "131"%char EmptyString)).

Definition padded_text : string := nbsp ++ Demo.dumps Demo.persona ++ nbsp ++ em_space.

Definition padded : runtime :=
  runtime_with Demo.provider
    (Demo.completions (Some padded_text) (Some (Demo.dumps Demo.insights))).

(** The completion service cannot be reached. *)
Definition unreachable : runtime :=
  runtime_with Demo.provider (fun _ _ => inl (LibraryError "Connection error.")).

(** One item of the country completion is a number. *)
Definition mixed : runtime :=
  runtime_with Demo.provider
    (Demo.completions (Some Demo.persona_text) (Some (Demo.dumps mixed_insights))).

Definition plain_body : list (string * json) :=
  [ ("movies", JStr "Inception"); ("music", JStr "Daft Punk");
    ("brands", JStr "Nike"); ("gender", JStr "male") ].

Definition numeric_music_without_gender : list (string * json) :=
  [ ("movies", JStr "Inception"); ("music", JInt 5); ("brands", JStr "Nike") ].

Definition numeric_music_body : list (string * json) :=
  [ ("movies", JStr "Inception"); ("music", JInt 5);
    ("brands", JStr "Nike"); ("gender", JStr "male") ].


Definition arguments (language seed : json) (suggestions : list json) : persona_arguments :=
  {| arg_movies := JStr "Inception"; arg_music := JStr "Daft Punk";
     arg_brands := JStr "Nike"; arg_gender := JStr "male";
     arg_qloo_suggestions := suggestions;
     arg_language := language; arg_variation_seed := seed |}.

Definition korea_old : json :=
  JDict [("country", JStr "South Korea"); ("recommendation", JStr "Oldboy")].

Definition korea_new : json :=
  JDict [("country", JStr "South Korea"); ("recommendation", JStr "Parasite")].

Definition japan : json :=
  JDict [("country", JStr "Japan"); ("recommendation", JStr "Totoro")].

Definition anonymous : json := JDict [("recommendation", JStr "Nowhere")].

End Cases.

(** * Properties *)

(** ** The embedding on sample values *)

Example lower_example : PyStr.lower "urn:entity:ARTIST" = "urn:entity:artist".
Proof. reflexivity. Qed.

Example quote_example : PyStr.quote "Daft Punk/a&b~" = "Daft%20Punk/a%26b~".
Proof. reflexivity. Qed.

Example strip_example : PyStr.strip (" {a b}" ++ newline ++ " ") = "{a b}".
Proof. reflexivity. Qed.

Example str_exn_example :
  str_exn (KeyError "gender") = "'gender'" /\
  str_exn (HTTPException 500 "GPT returned empty response")
    = "500: GPT returned empty response".
Proof. split; reflexivity. Qed.

Example literals_example :
  PyFloat.f0_8 = S754_finite false 7205759403792794 (-53) /\
  PyFloat.f0_05 = S754_finite false 7205759403792794 (-57) /\
  PyFloat.f2_0 = S754_finite false 4503599627370496 (-51).
Proof. repeat split. Qed.

Example float_of_int_example :
  float_of_int (2 ^ 1024 - 2 ^ 970 - 1) = inr (S754_finite false 9007199254740991 971) /\
  float_of_int (2 ^ 1024 - 2 ^ 970) = inl (OverflowError "int too large to convert to float").
Proof. split; vm_compute; reflexivity. Qed.

Example dict_set_example :
  dict_set (JBool true) (JStr "b") [(JInt 1, JStr "a"); (JStr "x", JNull)]
  = [(JInt 1, JStr "b"); (JStr "x", JNull)].
Proof. reflexivity. Qed.

(** A full run: the artist resolves to A1 (the second candidate, whose
    type is written with a capital), the movie to the empty string, the
    brand to nothing; only the artist is looked up for trends. *)
Example talkative_run :
  analyze_profile Demo.talkative (inr (JDict Demo.body)) [] =
  ([ ChatCreate (cultural_request "French" sample_countries);
     ChatCreate
       (persona_request Demo.talkative "French"
          {| arg_movies := JStr "Inception"; arg_music := JStr "Daft Punk";
             arg_brands := JStr "Nike"; arg_gender := JStr "male";
             arg_qloo_suggestions := [JStr "Justice"; JStr "Air"];
             arg_language := JStr "fr"; arg_variation_seed := JInt 0 |}
          PyFloat.f0_8);
     RequestsGet
       "https://qloo.example/v2/trending?filter.start_date=2025-01-01&filter.end_date=2025-07-19&filter.type=urn:entity:artist&signal.interests.entities=A1"
       (Some "secret");
     RequestsGet "https://qloo.example/v1/autocomplete?query=Nike" (Some "secret");
     RequestsGet "https://qloo.example/v1/autocomplete?query=Inception" (Some "secret");
     RequestsGet "https://qloo.example/v1/autocomplete?query=Daft%20Punk" (Some "secret") ],
   inr {| result := Demo.dumps Demo.persona;
          culturalTwin := JStr "Unknown";
          countryInsights := [(JStr "France", Demo.france)] |}).
Proof. vm_compute. reflexivity. Qed.

(** ** The monad *)

Section MonadLaws.

Context {A B : Type}.

Lemma bind_ok (m : M A) (k : A -> M B) log log1 a :
  m log = (log1, inr a) -> bind m k log = k a log1.
Proof. unfold bind. intros ->. reflexivity. Qed.

Lemma bind_raises (m : M A) (k : A -> M B) log log1 e :
  m log = (log1, inl e) -> bind m k log = (log1, inl e).
Proof. unfold bind. intros ->. reflexivity. Qed.

Lemma bind_returns_inv (m : M A) (k : A -> M B) log log2 b :
  bind m k log = (log2, inr b) ->
  exists log1 a, m log = (log1, inr a) /\ k a log1 = (log2, inr b).
Proof.
  unfold bind. destruct (m log) as [log1 [e | a]]; intros H.
  - discriminate.
  - exists log1, a. split; [reflexivity | exact H].
Qed.

Lemma bind_lift_ok (r : outcome A) (k : A -> M B) log a :
  r = inr a -> bind (lift r) k log = k a log.
Proof. intros ->. reflexivity. Qed.

Lemma bind_lift_raises (r : outcome A) (k : A -> M B) log e :
  r = inl e -> bind (lift r) k log = (log, inl e).
Proof. intros ->. reflexivity. Qed.

Lemma rbind_returns_inv (r : outcome A) (k : A -> outcome B) b :
  rbind r k = inr b -> exists a, r = inr a /\ k a = inr b.
Proof.
  destruct r as [e | a]; simpl; intros H.
  - discriminate.
  - exists a. split; [reflexivity | exact H].
Qed.

End MonadLaws.

Lemma try_except_returns {A} (m : M A) (h : exn -> M A) log log1 a :
  m log = (log1, inr a) -> try_except m h log = (log1, inr a).
Proof. unfold try_except. intros ->. reflexivity. Qed.

Lemma try_except_raises {A} (m : M A) (h : exn -> M A) log log1 e :
  m log = (log1, inl e) -> try_except m h log = h e log1.
Proof. unfold try_except. intros ->. reflexivity. Qed.

(** Whatever happens inside the [try], the handler answers with the
    payload or with an [HTTPException] of status 500. *)
Lemma analyze_profile_cases rt request_json log :
  (exists log1 p,
      analyze_profile_body rt request_json log = (log1, inr p) /\
      analyze_profile rt request_json log = (log1, inr p)) \/
  (exists log1 e,
      analyze_profile_body rt request_json log = (log1, inl e) /\
      analyze_profile rt request_json log =
        (log1, inl (HTTPException 500 ("Analysis failed: " ++ str_exn e)))).
Proof.
  unfold analyze_profile, try_except.
  destruct (analyze_profile_body rt request_json log) as [log1 [e | p]].
  - right. exists log1, e. split; reflexivity.
  - left. exists log1, p. split; reflexivity.
Qed.

(** The [try] body is its two stages in sequence. *)
Lemma analyze_profile_body_stages rt request_json log :
  analyze_profile_body rt request_json log =
  bind (persona_stage rt request_json)
       (fun lp => insights_stage rt (fst lp) (snd lp)) log.
Proof.
  unfold analyze_profile_body, persona_stage, persona_call_arguments,
    insights_stage, call_persona, bind, lift, ret.
  repeat match goal with
         | |- context [match ?x with _ => _ end] => destruct x; simpl; try reflexivity
         end.
Qed.

(** ** Display language *)

Lemma mapping_get_display code :
  mapping_get code LANGUAGE_MAPPING "English" = display_language code.
Proof.
  unfold display_language.
  cbv beta iota delta [mapping_get LANGUAGE_MAPPING].
  repeat rewrite (String.eqb_sym _ code). reflexivity.
Qed.

Lemma display_language_unrecognised code :
  ~ In code recognised_codes -> display_language code = "English".
Proof.
  intros H. unfold display_language.
  repeat match goal with
         | |- context [String.eqb code ?c] =>
             destruct (String.eqb_spec code c) as [-> | _];
             [exfalso; apply H; simpl; tauto |]
         end.
  reflexivity.
Qed.

Lemma persona_sends rt a log lang t :
  target_language_of (arg_language a) = inr lang ->
  capped_temperature (arg_variation_seed a) = inr t ->
  fst (call_persona rt a log) = ChatCreate (persona_request rt lang a t) :: log.
Proof.
  intros Hl Ht. unfold call_persona, generate_persona_from_taste.
  rewrite (bind_lift_ok _ _ _ _ Hl), (bind_lift_ok _ _ _ _ Ht).
  unfold bind, chat, persona_request.
  destruct (chat_completions_create rt log _) as [e | [s |]]; simpl; try reflexivity.
  destruct (String.eqb s ""); reflexivity.
Qed.

Lemma cultural_sends rt countries language log lang :
  countries <> [] ->
  target_language_of language = inr lang ->
  fst (generate_cultural_map_insights rt countries language log) =
  ChatCreate (cultural_request lang countries) :: log.
Proof.
  intros Hc Hl. unfold generate_cultural_map_insights.
  destruct countries as [| c cs]; [congruence |].
  rewrite (bind_lift_ok _ _ _ _ Hl).
  unfold bind, chat, cultural_request.
  destruct (chat_completions_create rt log _) as [e | [s |]]; simpl; try reflexivity.
  destruct (String.eqb s ""); simpl; try reflexivity.
  destruct (rbind _ _); reflexivity.
Qed.

(** C8.  A language code outside {en, tr, es, fr, de, hi, zh, it} resolves
    to "English", a code of the set to its fixed display name, and this is
    the language both synthesizers write into the prompt they send: the
    Persona Synthesizer whenever it reaches its call, the Cultural Map
    Synthesizer for every non-empty country list. *)
Theorem display_language_resolution (code : string) :
  target_language_of (JStr code) = inr (display_language code) /\
  (~ In code recognised_codes -> display_language code = "English") /\
  map display_language recognised_codes =
    ["English"; "Turkish"; "Spanish"; "French"; "German"; "Hindi"; "Chinese"; "Italian"] /\
  (forall rt a log t,
      arg_language a = JStr code ->
      capped_temperature (arg_variation_seed a) = inr t ->
      fst (call_persona rt a log) =
      ChatCreate (persona_request rt (display_language code) a t) :: log) /\
  (forall rt countries log,
      countries <> [] ->
      fst (generate_cultural_map_insights rt countries (JStr code) log) =
      ChatCreate (cultural_request (display_language code) countries) :: log).
Proof.
  assert (Hres : target_language_of (JStr code) = inr (display_language code)).
  { unfold target_language_of. rewrite mapping_get_display. reflexivity. }
  split; [exact Hres |].
  split; [apply display_language_unrecognised |].
  split; [reflexivity |].
  split.
  - intros rt a log t Ha Ht. apply persona_sends; [rewrite Ha; exact Hres | exact Ht].
  - intros rt countries log Hc. apply cultural_sends; assumption.
Qed.

(** ** Sampling temperature *)


Lemma min_never_above (a b : PyFloat.float) :
  PyFloat.ltb b b = false -> PyFloat.ltb b (PyFloat.min a b) = false.
Proof.
  intros Hb. unfold PyFloat.min.
  destruct (PyFloat.ltb b a) eqn:E; [exact Hb | exact E].
Qed.






(** The handler turns that failure into its generic server error, and the
    Persona Synthesizer is never called. *)
Example huge_seed_request :
  analyze_profile Demo.talkative (inr (JDict (Demo.body_with_seed (2 ^ 1024)))) [] =
  (fst (persona_call_arguments Demo.talkative
          (inr (JDict (Demo.body_with_seed (2 ^ 1024)))) []),
   inl (HTTPException 500 "Analysis failed: int too large to convert to float")).
Proof. vm_compute. reflexivity. Qed.

(** The seeds 24 to 2000 all give the cap. *)
Example seeds_24_to_2000_are_capped : seeds_give PyFloat.f2_0 24 1977 = true.
Proof. vm_compute. reflexivity. Qed.

(** ** Country insights *)

Lemma dict_set_keys k v d k0 :
  In k0 (keys (dict_set k v d)) -> In k0 (keys d) \/ k0 = k.
Proof.
  induction d as [| [k' v'] d IH]; simpl.
  - intros [<- | []]. right. reflexivity.
  - destruct (key_eqb k' k); simpl.
    + intros H. left. exact H.
    + intros [<- | H].
      * left. left. reflexivity.
      * destruct (IH H) as [H' | H']; [left; right; exact H' | right; exact H'].
Qed.

Lemma py_in_getitem_country item k :
  py_getitem item "country" = inr k -> country_of item = Some k.
Proof.
  destruct item; simpl; try discriminate.
  destruct (lookup "country" d); intros H; [injection H as ->; reflexivity | discriminate].
Qed.

(** Every key of the comprehension's result was there before or is the
    [country] of one of the items. *)
Lemma country_items_keys items :
  forall acc d,
    country_items items acc = inr d ->
    forall k, In k (keys d) ->
      In k (keys acc) \/ exists item, In item items /\ country_of item = Some k.
Proof.
  induction items as [| item rest IH]; simpl; intros acc d H k Hk.
  - injection H as <-. left. exact Hk.
  - apply rbind_returns_inv in H. destruct H as [c [Hc H]].
    destruct c.
    + apply rbind_returns_inv in H. destruct H as [k1 [Hk1 H]].
      apply rbind_returns_inv in H. destruct H as [u [_ H]].
      destruct (IH _ _ H k Hk) as [Hacc | [it [Hin Hit]]].
      * destruct (dict_set_keys _ _ _ _ Hacc) as [Hold | ->].
        -- left. exact Hold.
        -- right. exists item. split; [left; reflexivity |].
           apply py_in_getitem_country. exact Hk1.
      * right. exists it. split; [right; exact Hin | exact Hit].
    + destruct (IH _ _ H k Hk) as [Hacc | [it [Hin Hit]]].
      * left. exact Hacc.
      * right. exists it. split; [right; exact Hin | exact Hit].
Qed.

Lemma country_comprehension_keys parsed d :
  country_comprehension parsed = inr d ->
  exists items,
    py_iter parsed = inr items /\
    forall k, In k (keys d) -> exists item, In item items /\ country_of item = Some k.
Proof.
  unfold country_comprehension. intros H.
  apply rbind_returns_inv in H. destruct H as [items [Hi H]].
  exists items. split; [exact Hi |].
  intros k Hk. destruct (country_items_keys _ _ _ H k Hk) as [[] | Hitem]. exact Hitem.
Qed.

(** What the Cultural Map Synthesizer returns: nothing, or the
    comprehension over the completion it received. *)
Lemma cultural_map_returns rt countries language log log1 d :
  generate_cultural_map_insights rt countries language log = (log1, inr d) ->
  d = [] \/
  exists lang text_ parsed,
    target_language_of language = inr lang /\
    chat_completions_create rt log (cultural_request lang countries) = inr (Some text_) /\
    json_loads rt text_ = inr parsed /\
    country_comprehension parsed = inr d.
Proof.
  unfold generate_cultural_map_insights.
  destruct countries as [| c cs].
  { intros H. injection H as _ <-. left. reflexivity. }
  intros H. apply bind_returns_inv in H. destruct H as [l1 [lang [Hl H]]].
  unfold lift in Hl. injection Hl as <- Hl.
  apply bind_returns_inv in H. destruct H as [l2 [content [Hc H]]].
  unfold chat in Hc. injection Hc as <- Hc.
  destruct content as [text_ |].
  2:{ injection H as _ <-. left. reflexivity. }
  destruct (truthy_content (Some text_)).
  2:{ injection H as _ <-. left. reflexivity. }
  destruct (rbind (json_loads rt text_) _) as [e | d'] eqn:E.
  { injection H as _ <-. left. reflexivity. }
  injection H as _ <-.
  apply rbind_returns_inv in E. destruct E as [parsed [Hp Hd]].
  right. exists lang, text_, parsed. repeat split; assumption.
Qed.

(** C1, as the code has it.  In every successful response each key of
    countryInsights is the [country] value of an item of the parsed model
    output; so the keys are among the four countries asked for whenever the
    model's output names no other country. *)
Theorem country_insights_keys rt request_json log log1 (p : payload) :
  analyze_profile rt request_json log = (log1, inr p) ->
  keys_from_completion rt (countryInsights p).
Proof.
  intros H.
  destruct (analyze_profile_cases rt request_json log)
    as [[l [p' [Hb Ha]]] | [l [e [_ Ha]]]]; rewrite Ha in H; [| discriminate].
  injection H as -> ->.
  rewrite analyze_profile_body_stages in Hb.
  apply bind_returns_inv in Hb. destruct Hb as [l1 [[language parsed0] [_ Hi]]].
  unfold insights_stage in Hi.
  apply bind_returns_inv in Hi. destruct Hi as [l2 [d [Hg Hi]]].
  apply bind_returns_inv in Hi. destruct Hi as [l3 [twin [_ Hi]]].
  unfold ret in Hi. injection Hi as _ <-.
  cbn [countryInsights fst snd] in *. unfold keys_from_completion.
  destruct (cultural_map_returns _ _ _ _ _ _ Hg)
    as [-> | [lang [text_ [parsed [_ [Hc [Hp Hd]]]]]]]; [left; reflexivity |].
  right. destruct (country_comprehension_keys _ _ Hd) as [items [Hit Hkeys]].
  exists l1, lang, text_, parsed, items.
  repeat split; try assumption.
  intros Hall k Hk. destruct (Hkeys k Hk) as [item [Hin Hco]].
  exact (Hall item k Hin Hco).
Qed.

Lemma country_insights_keys_witness :
  keys_from_completion Demo.talkative [(JStr "France", Demo.france)].
Proof.
  apply (country_insights_keys Demo.talkative (inr (JDict Demo.body)) []
           (fst (analyze_profile Demo.talkative (inr (JDict Demo.body)) []))
           {| result := Demo.dumps Demo.persona; culturalTwin := JStr "Unknown";
              countryInsights := [(JStr "France", Demo.france)] |}).
  vm_compute. reflexivity.
Defined.

(** C1 as stated fails: the model may name a country nobody asked for, and
    the response then carries it as a key. *)
Lemma country_insights_foreign_key :
  snd (analyze_profile Demo.talkative (inr (JDict Demo.body)) []) =
    inr {| result := Demo.dumps Demo.persona; culturalTwin := JStr "Unknown";
           countryInsights := [(JStr "France", Demo.france)] |} /\
  ~ In (JStr "France") (map JStr sample_countries) /\
  ~ (forall rt request_json log log1 (p : payload),
        analyze_profile rt request_json log = (log1, inr p) ->
        forall k, In k (keys (countryInsights p)) -> In k (map JStr sample_countries)).
Proof.
  assert (Hnot : ~ In (JStr "France") (map JStr sample_countries)).
  { simpl. intros [H | [H | [H | [H | []]]]]; discriminate H. }
  split; [vm_compute; reflexivity |].
  split; [exact Hnot |].
  intros H. apply Hnot.
  apply (H Demo.talkative (inr (JDict Demo.body)) []
           (fst (analyze_profile Demo.talkative (inr (JDict Demo.body)) []))
           {| result := Demo.dumps Demo.persona; culturalTwin := JStr "Unknown";
              countryInsights := [(JStr "France", Demo.france)] |}).
  - vm_compute. reflexivity.
  - simpl. left. reflexivity.
Qed.

(** ** Strings *)

Lemma append_assoc (a b c : string) : ((a ++ b) ++ c = a ++ (b ++ c))%string.
Proof. induction a as [| x a IH]; simpl; [reflexivity | rewrite IH; reflexivity]. Qed.

Lemma lower_app (a b : string) :
  PyStr.lower (a ++ b) = (PyStr.lower a ++ PyStr.lower b)%string.
Proof. induction a as [| x a IH]; simpl; [reflexivity | rewrite IH; reflexivity]. Qed.

(** Lowering works letter by letter, so a split of the lowered string is a
    split of the string. *)
Lemma lower_split (t x y : string) :
  PyStr.lower t = (x ++ y)%string ->
  exists a b, t = (a ++ b)%string /\ PyStr.lower a = x /\ PyStr.lower b = y.
Proof.
  revert t. induction x as [| c x IH]; simpl; intros t H.
  - exists EmptyString, t. repeat split. exact H.
  - destruct t as [| c' t]; simpl in H; [discriminate |].
    injection H as Hc Ht. destruct (IH t Ht) as [a [b [-> [Ha Hb]]]].
    exists (String c' a), b. simpl. rewrite Hc, Ha. repeat split. exact Hb.
Qed.

Lemma prefixb_spec (p s : string) :
  PyStr.prefixb p s = true <-> exists b, s = (p ++ b)%string.
Proof.
  revert s. induction p as [| c p IH]; simpl; intros s.
  - split; [intros _; exists s; reflexivity | reflexivity].
  - destruct s as [| c' s].
    + split; [discriminate | intros [b H]; discriminate].
    + rewrite andb_true_iff, IH. split.
      * intros [Hc [b ->]]. apply Ascii.eqb_eq in Hc. subst c'. exists b. reflexivity.
      * intros [b H]. injection H as -> ->. split; [apply Ascii.eqb_refl | exists b; reflexivity].
Qed.

Lemma contains_spec (p s : string) :
  PyStr.contains p s = true <-> exists a b, s = (a ++ p ++ b)%string.
Proof.
  induction s as [| c s IH]; simpl.
  - rewrite orb_false_r, prefixb_spec. split.
    + intros [b H]. exists EmptyString, b. exact H.
    + intros [a [b H]]. destruct a; [exists b; exact H | discriminate].
  - rewrite orb_true_iff, prefixb_spec, IH. split.
    + intros [[b H] | [a [b ->]]].
      * exists EmptyString, b. exact H.
      * exists (String c a), b. reflexivity.
    + intros [a [b H]]. destruct a as [| c' a]; simpl in H.
      * left. exists b. exact H.
      * right. injection H as _ ->. exists a, b. reflexivity.
Qed.

(** The test of [autocomplete_entity], for a category written in lower
    case, is containment up to case. *)
Lemma contains_lower_spec (c t : string) :
  PyStr.lower c = c ->
  PyStr.contains c (PyStr.lower t) = true <-> contains_ignoring_case c t.
Proof.
  intros Hc. rewrite contains_spec. unfold contains_ignoring_case. split.
  - intros [x [y H]].
    destruct (lower_split _ _ _ H) as [a [rest [-> [Ha Hrest]]]].
    destruct (lower_split _ _ _ Hrest) as [part [b [-> [Hpart Hb]]]].
    exists a, part, b. split; [reflexivity | rewrite Hc; exact Hpart].
  - intros [a [part [b [-> Hpart]]]].
    exists (PyStr.lower a), (PyStr.lower b).
    rewrite !lower_app, Hpart, Hc. reflexivity.
Qed.

(** ** Entity Resolver *)

Lemma first_match_candidate r rest category :
  candidate r ->
  first_match (r :: rest) category =
  if PyStr.contains category (PyStr.lower (reported_type r))
  then inr (identifier r) else first_match rest category.
Proof.
  intros [d [-> Ht]].
  cbn [first_match py_get rbind py_lower reported_type identifier].
  destruct Ht as [Ht | [t Ht]]; rewrite Ht;
    cbn [first_match py_get rbind py_lower reported_type identifier];
    reflexivity.
Qed.

Lemma first_match_skips before rest category :
  PyStr.lower category = category ->
  Forall candidate before ->
  Forall (fun c => ~ candidate_matches category c) before ->
  first_match (before ++ rest) category = first_match rest category.
Proof.
  intros Hc Hcand Hno. induction before as [| r before IH]; [reflexivity |].
  inversion Hcand as [| ? ? Hr Hcand']; subst.
  inversion Hno as [| ? ? Hn Hno']; subst.
  rewrite <- app_comm_cons, (first_match_candidate _ _ _ Hr).
  destruct (PyStr.contains category (PyStr.lower (reported_type r))) eqn:E.
  - exfalso. apply Hn. apply contains_lower_spec; assumption.
  - apply IH; assumption.
Qed.

Lemma first_match_found before r after category :
  PyStr.lower category = category ->
  Forall candidate (before ++ r :: after) ->
  Forall (fun c => ~ candidate_matches category c) before ->
  candidate_matches category r ->
  first_match (before ++ r :: after) category = inr (identifier r).
Proof.
  intros Hc Hcand Hno Hr.
  apply Forall_app in Hcand. destruct Hcand as [Hb Hra].
  inversion Hra as [| ? ? Hcr _]; subst.
  rewrite (first_match_skips _ _ _ Hc Hb Hno), (first_match_candidate _ _ _ Hcr).
  apply (contains_lower_spec _ _ Hc) in Hr. rewrite Hr. reflexivity.
Qed.

Lemma first_match_none rs category :
  PyStr.lower category = category ->
  Forall candidate rs ->
  Forall (fun c => ~ candidate_matches category c) rs ->
  first_match rs category = inr JNull.
Proof.
  intros Hc Hcand Hno.
  rewrite <- (app_nil_r rs). rewrite (first_match_skips _ _ _ Hc Hcand Hno). reflexivity.
Qed.

(** [autocomplete_entity] on a string query, given the provider's answer. *)
Lemma autocomplete_entity_run rt query category log response :
  requests_get rt log (autocomplete_url rt query) (getenv rt "QLOO_API_KEY") = inr response ->
  autocomplete_entity rt (JStr query) category log =
  (RequestsGet (autocomplete_url rt query) (getenv rt "QLOO_API_KEY") :: log,
   if status_code response =? 200 then
     data <~ response_json rt response ;;
     results <~ py_get data "results" (JList []) ;;
     items <~ py_iter results ;;
     first_match items category
   else inr JNull).
Proof.
  intros H.
  unfold autocomplete_entity, bind, lift, http_get, autocomplete_url, py_quote in *.
  rewrite H. destruct (status_code response =? 200); reflexivity.
Qed.

(** C5.  For a string query and a category written in lower case (artist,
    movie and brand are), the Entity Resolver makes one request; on a
    status other than 200 it returns None; on 200 with a list of candidates
    it returns the identifier of the first candidate whose type contains
    the category up to case, and None when no candidate does. *)
Theorem autocomplete_entity_resolves rt query category log response :
  PyStr.lower category = category ->
  requests_get rt log (autocomplete_url rt query) (getenv rt "QLOO_API_KEY") = inr response ->
  let sent := RequestsGet (autocomplete_url rt query) (getenv rt "QLOO_API_KEY") :: log in
  (status_code response <> 200 ->
   autocomplete_entity rt (JStr query) category log = (sent, inr JNull)) /\
  (status_code response = 200 ->
   forall data rs,
     response_json rt response = inr (JDict data) ->
     py_get (JDict data) "results" (JList []) = inr (JList rs) ->
     Forall candidate rs ->
     (forall before r after,
         rs = (before ++ r :: after)%list ->
         Forall (fun c => ~ candidate_matches category c) before ->
         candidate_matches category r ->
         autocomplete_entity rt (JStr query) category log = (sent, inr (identifier r))) /\
     (Forall (fun c => ~ candidate_matches category c) rs ->
      autocomplete_entity rt (JStr query) category log = (sent, inr JNull))).
Proof.
  intros Hc Hget sent. rewrite (autocomplete_entity_run _ _ _ _ _ Hget). fold sent.
  split.
  - intros Hs. apply Z.eqb_neq in Hs. rewrite Hs. reflexivity.
  - intros Hs data rs Hjson Hres Hcand. rewrite Hs, Z.eqb_refl, Hjson.
    cbn [rbind]. rewrite Hres. cbn [rbind py_iter]. split.
    + intros before r after -> Hno Hr.
      rewrite (first_match_found _ _ _ _ Hc Hcand Hno Hr). reflexivity.
    + intros Hno. rewrite (first_match_none _ _ Hc Hcand Hno). reflexivity.
Qed.

Lemma not_matching category r :
  PyStr.lower category = category ->
  PyStr.contains category (PyStr.lower (reported_type r)) = false ->
  ~ candidate_matches category r.
Proof.
  intros Hc Hf Hm. apply (contains_lower_spec _ _ Hc) in Hm.
  rewrite Hm in Hf. discriminate Hf.
Qed.

Lemma candidate_dict_without_type d :
  lookup "type" d = None -> candidate (JDict d).
Proof. intros H. exists d. split; [reflexivity | left; exact H]. Qed.

Lemma candidate_dict_with_type d t :
  lookup "type" d = Some (JStr t) -> candidate (JDict d).
Proof. intros H. exists d. split; [reflexivity | right; exists t; exact H]. Qed.

Lemma autocomplete_entity_resolves_witness :
  snd (autocomplete_entity Demo.talkative (JStr "Daft Punk") "artist" []) = inr (JStr "A1").
Proof.
  destruct (autocomplete_entity_resolves Demo.talkative "Daft Punk" "artist" []
              {| status_code := 200; text := Demo.dumps Demo.artist_candidates |}
              eq_refl eq_refl) as [_ H].
  destruct (H eq_refl
              [("results",
                JList [ JDict [("type", JStr "urn:entity:place"); ("id", JStr "P0")];
                        JDict [("type", JStr "urn:entity:Artist"); ("id", JStr "A1")];
                        JDict [("type", JStr "urn:entity:artist"); ("id", JStr "A2")] ])]
              [ JDict [("type", JStr "urn:entity:place"); ("id", JStr "P0")];
                JDict [("type", JStr "urn:entity:Artist"); ("id", JStr "A1")];
                JDict [("type", JStr "urn:entity:artist"); ("id", JStr "A2")] ]
              eq_refl eq_refl) as [Hfound _].
  - repeat constructor; eapply candidate_dict_with_type; reflexivity.
  - rewrite (Hfound [ JDict [("type", JStr "urn:entity:place"); ("id", JStr "P0")] ]
               (JDict [("type", JStr "urn:entity:Artist"); ("id", JStr "A1")])
               [ JDict [("type", JStr "urn:entity:artist"); ("id", JStr "A2")] ]
               eq_refl).
    + reflexivity.
    + constructor; [| constructor]. apply not_matching; reflexivity.
    + apply contains_lower_spec; reflexivity.
Defined.

(** ** Trend Fetcher *)

Lemma get_qloo_trending_falsy rt entity_id entity_type log :
  truthy entity_id = false ->
  get_qloo_trending rt entity_id entity_type log = (log, inr []).
Proof. intros H. unfold get_qloo_trending. rewrite H. reflexivity. Qed.

Lemma get_qloo_trending_run rt entity_id entity_type log response :
  truthy entity_id = true ->
  let url := trending_url rt (date_today rt log) entity_id entity_type in
  requests_get rt log url (getenv rt "QLOO_API_KEY") = inr response ->
  get_qloo_trending rt entity_id entity_type log =
  (RequestsGet url (getenv rt "QLOO_API_KEY") :: log,
   if status_code response =? 200 then
     data <~ response_json rt response ;;
     results <~ py_get data "results" (JList []) ;;
     items <~ py_iter results ;;
     trending_names items
   else inr []).
Proof.
  intros Ht url H. subst url.
  unfold get_qloo_trending, bind, lift, http_get, today, trending_url in *.
  rewrite Ht. cbn beta iota zeta delta [negb] in *. rewrite H.
  destruct (status_code response =? 200); reflexivity.
Qed.

Lemma trending_names_spec items :
  trending_names (map JDict items) = inr (names_of items).
Proof.
  induction items as [| i items IH]; [reflexivity |].
  cbn [map trending_names py_in rbind names_of]. unfold has_key.
  destruct (lookup "name" i) as [n |] eqn:E.
  - cbn [py_get rbind]. rewrite E, IH. reflexivity.
  - exact IH.
Qed.

(** The names come out in the order of the items. *)
Lemma names_of_app a b : names_of (a ++ b) = (names_of a ++ names_of b)%list.
Proof.
  induction a as [| i a IH]; [reflexivity |].
  simpl. destruct (lookup "name" i); [simpl; rewrite IH |]; auto.
Qed.

(** C6.  Without an identifier the Trend Fetcher returns the empty list
    and makes no call.  With one it makes one request; on status 200 with a
    list of result objects it returns the [name] of every item that has
    one, in the provider's order; on any other status it returns the empty
    list. *)
Theorem get_qloo_trending_fetches rt entity_id category log :
  (truthy entity_id = false ->
   get_qloo_trending rt entity_id category log = (log, inr [])) /\
  get_qloo_trending rt JNull category log = (log, inr []) /\
  (truthy entity_id = true ->
   forall response,
     let url := trending_url rt (date_today rt log) entity_id category in
     let sent := RequestsGet url (getenv rt "QLOO_API_KEY") :: log in
     requests_get rt log url (getenv rt "QLOO_API_KEY") = inr response ->
     (status_code response = 200 ->
      forall data items,
        response_json rt response = inr (JDict data) ->
        py_get (JDict data) "results" (JList []) = inr (JList (map JDict items)) ->
        get_qloo_trending rt entity_id category log = (sent, inr (names_of items))) /\
     (status_code response <> 200 ->
      get_qloo_trending rt entity_id category log = (sent, inr []))).
Proof.
  split; [apply get_qloo_trending_falsy |].
  split; [apply get_qloo_trending_falsy; reflexivity |].
  intros Ht response url sent Hget.
  rewrite (get_qloo_trending_run _ _ _ _ _ Ht Hget). fold url. fold sent.
  split.
  - intros Hs data items Hjson Hres. rewrite Hs, Z.eqb_refl, Hjson.
    cbn [rbind]. rewrite Hres. cbn [rbind py_iter].
    rewrite trending_names_spec. reflexivity.
  - intros Hs. apply Z.eqb_neq in Hs. rewrite Hs. reflexivity.
Qed.

Lemma get_qloo_trending_fetches_witness :
  snd (get_qloo_trending Demo.talkative (JStr "A1") "artist" []) =
  inr [JStr "Justice"; JStr "Air"].
Proof.
  destruct (get_qloo_trending_fetches Demo.talkative (JStr "A1") "artist" [])
    as [_ [_ H]].
  destruct (H eq_refl {| status_code := 200; text := Demo.dumps Demo.trending_items |}
              eq_refl) as [H200 _].
  rewrite (H200 eq_refl
             [("results",
               JList [ JDict [("name", JStr "Justice")];
                       JDict [("id", JStr "X")];
                       JDict [("name", JStr "Air")] ])]
             [ [("name", JStr "Justice")]; [("id", JStr "X")]; [("name", JStr "Air")] ]
             eq_refl eq_refl).
  reflexivity.
Defined.

(** C10.  When the first matching candidate has no [id], the Entity
    Resolver returns the empty string, not None; the Trend Fetcher answers
    the empty string as it answers None, with the empty list and no call,
    whatever the category and the calls made before. *)
Theorem empty_identifier_is_absent rt query category log response data before r after :
  PyStr.lower category = category ->
  requests_get rt log (autocomplete_url rt query) (getenv rt "QLOO_API_KEY") = inr response ->
  status_code response = 200 ->
  response_json rt response = inr (JDict data) ->
  py_get (JDict data) "results" (JList []) = inr (JList (before ++ JDict r :: after)) ->
  Forall candidate (before ++ JDict r :: after) ->
  Forall (fun c => ~ candidate_matches category c) before ->
  candidate_matches category (JDict r) ->
  lookup "id" r = None ->
  snd (autocomplete_entity rt (JStr query) category log) = inr (JStr "") /\
  forall category' log',
    get_qloo_trending rt (JStr "") category' log' = (log', inr []) /\
    get_qloo_trending rt (JStr "") category' log' =
    get_qloo_trending rt JNull category' log'.
Proof.
  intros Hc Hget Hs Hjson Hres Hcand Hno Hr Hid. split.
  - rewrite (autocomplete_entity_run _ _ _ _ _ Hget), Hs, Z.eqb_refl, Hjson.
    cbn [snd rbind]. rewrite Hres. cbn [rbind py_iter].
    rewrite (first_match_found _ _ _ _ Hc Hcand Hno Hr).
    cbn [identifier]. rewrite Hid. reflexivity.
  - intros category' log'. split; reflexivity.
Qed.

Lemma empty_identifier_is_absent_witness :
  snd (autocomplete_entity Demo.talkative (JStr "Inception") "movie" []) = inr (JStr "").
Proof.
  apply (empty_identifier_is_absent Demo.talkative "Inception" "movie" []
           {| status_code := 200; text := Demo.dumps Demo.movie_candidates |}
           [("results", JList [ JDict [("type", JStr "urn:entity:movie")] ])]
           [] [("type", JStr "urn:entity:movie")] []
           eq_refl eq_refl eq_refl eq_refl eq_refl).
  - repeat constructor. eapply candidate_dict_with_type; reflexivity.
  - constructor.
  - apply contains_lower_spec; reflexivity.
  - reflexivity.
Defined.

(** ** Request Handler *)

Lemma lift_returns_inv {A} (r : outcome A) log log1 a :
  lift r log = (log1, inr a) -> log1 = log /\ r = inr a.
Proof. unfold lift. intros H. injection H as <- ->. split; reflexivity. Qed.

Ltac step H l x Hx :=
  apply bind_returns_inv in H; destruct H as [l [x [Hx H]]].

Ltac lift_step H x Hx :=
  let l := fresh "l" in
  step H l x Hx; apply lift_returns_inv in Hx; destruct Hx as [-> Hx].

(** The [try] body continues from the evaluated arguments with the call of
    the Persona Synthesizer. *)
Lemma analyze_profile_body_calls_persona rt request_json log log1 a :
  persona_call_arguments rt request_json log = (log1, inr a) ->
  analyze_profile_body rt request_json log =
  (ai_result <- generate_persona_from_taste rt (arg_movies a) (arg_music a)
                  (arg_brands a) (arg_gender a) (arg_qloo_suggestions a)
                  (arg_language a) (arg_variation_seed a) ;;
   parsed <- lift (json_loads rt ai_result) ;;
   insights_stage rt (arg_language a) parsed) log1.
Proof.
  intros H. rewrite analyze_profile_body_stages. unfold persona_stage.
  unfold bind at 1 2. rewrite H. unfold call_persona, bind, lift, ret.
  destruct (generate_persona_from_taste _ _ _ _ _ _ _ _ _) as [l2 [e | ai]];
    [reflexivity |].
  destruct (json_loads rt ai); reflexivity.
Qed.

(** C7.  Whenever the handler gets as far as calling the Persona
    Synthesizer, the suggestion list it passes is the music trends, then
    the movie trends, then the brand trends, as the three Trend Fetcher
    calls returned them, empty or not. *)
Theorem suggestions_in_order rt request_json log log1 a :
  persona_call_arguments rt request_json log = (log1, inr a) ->
  exists body music_id movie_id brand_id l1 l2 l3 l4 l5
         music_trends movie_trends brand_trends,
    request_json = inr body /\
    py_getitem body "music" = inr (arg_music a) /\
    py_getitem body "movies" = inr (arg_movies a) /\
    py_getitem body "brands" = inr (arg_brands a) /\
    autocomplete_entity rt (arg_music a) "artist" log = (l1, inr music_id) /\
    autocomplete_entity rt (arg_movies a) "movie" l1 = (l2, inr movie_id) /\
    autocomplete_entity rt (arg_brands a) "brand" l2 = (l3, inr brand_id) /\
    get_qloo_trending rt music_id "artist" l3 = (l4, inr music_trends) /\
    get_qloo_trending rt movie_id "movie" l4 = (l5, inr movie_trends) /\
    get_qloo_trending rt brand_id "brand" l5 = (log1, inr brand_trends) /\
    arg_qloo_suggestions a = (music_trends ++ movie_trends ++ brand_trends)%list /\
    analyze_profile_body rt request_json log =
    (ai_result <- generate_persona_from_taste rt (arg_movies a) (arg_music a)
                    (arg_brands a) (arg_gender a)
                    (music_trends ++ movie_trends ++ brand_trends)%list
                    (arg_language a) (arg_variation_seed a) ;;
     parsed <- lift (json_loads rt ai_result) ;;
     insights_stage rt (arg_language a) parsed) log1.
Proof.
  intros H. pose proof (analyze_profile_body_calls_persona _ _ _ _ _ H) as Hbody.
  unfold persona_call_arguments in H.
  lift_step H body Hbody0.
  lift_step H variation Hvar.
  lift_step H language Hlang.
  lift_step H music_query Hmq.
  step H l1 music_id Hmusic.
  lift_step H movie_query Hvq.
  step H l2 movie_id Hmovie.
  lift_step H brand_query Hbq.
  step H l3 brand_id Hbrand.
  step H l4 music_trends Hmt.
  step H l5 movie_trends Hvt.
  step H l6 brand_trends Hbt.
  lift_step H movies Hmovies.
  lift_step H music Hmusic'.
  lift_step H brands Hbrands.
  lift_step H gender Hgender.
  unfold ret in H. injection H as <- <-.
  cbn [arg_movies arg_music arg_brands arg_gender arg_qloo_suggestions
       arg_language arg_variation_seed] in *.
  rewrite Hmq in Hmusic'. injection Hmusic' as <-.
  rewrite Hvq in Hmovies. injection Hmovies as <-.
  rewrite Hbq in Hbrands. injection Hbrands as <-.
  exists body, music_id, movie_id, brand_id, l1, l2, l3, l4, l5,
    music_trends, movie_trends, brand_trends.
  repeat (split; [assumption || reflexivity |]). exact Hbody.
Qed.

Lemma suggestions_in_order_witness :
  exists id l l' music_trends movie_trends brand_trends,
    get_qloo_trending Demo.talkative id "artist" l = (l', inr music_trends) /\
    [JStr "Justice"; JStr "Air"] = (music_trends ++ movie_trends ++ brand_trends)%list.
Proof.
  destruct (suggestions_in_order Demo.talkative (inr (JDict Demo.body)) []
              (fst (persona_call_arguments Demo.talkative (inr (JDict Demo.body)) []))
              {| arg_movies := JStr "Inception"; arg_music := JStr "Daft Punk";
                 arg_brands := JStr "Nike"; arg_gender := JStr "male";
                 arg_qloo_suggestions := [JStr "Justice"; JStr "Air"];
                 arg_language := JStr "fr"; arg_variation_seed := JInt 0 |})
    as [body [music_id [movie_id [brand_id [l1 [l2 [l3 [l4 [l5
         [music_trends [movie_trends [brand_trends H]]]]]]]]]]]].
  - vm_compute. reflexivity.
  - exists music_id, l3, l4, music_trends, movie_trends, brand_trends.
    split; apply H.
Defined.

Lemma call_persona_empty rt a log lang t content :
  target_language_of (arg_language a) = inr lang ->
  capped_temperature (arg_variation_seed a) = inr t ->
  chat_completions_create rt log (persona_request rt lang a t) = inr content ->
  content = None \/ content = Some "" ->
  call_persona rt a log =
  (ChatCreate (persona_request rt lang a t) :: log,
   inl (HTTPException 500 "GPT returned empty response")).
Proof.
  intros Hl Ht Hc He. unfold call_persona, generate_persona_from_taste.
  rewrite (bind_lift_ok _ _ _ _ Hl), (bind_lift_ok _ _ _ _ Ht).
  unfold bind, chat. fold (persona_request rt lang a t). rewrite Hc.
  destruct He as [-> | ->]; reflexivity.
Qed.

(** C3.  When the persona completion is None or empty, the Persona
    Synthesizer raises HTTPException(500, "GPT returned empty response");
    the handler catches it and answers with status 500 and a detail that
    contains that message; no payload is returned. *)
Theorem empty_persona_completion rt request_json log log1 a lang t content :
  persona_call_arguments rt request_json log = (log1, inr a) ->
  target_language_of (arg_language a) = inr lang ->
  capped_temperature (arg_variation_seed a) = inr t ->
  chat_completions_create rt log1 (persona_request rt lang a t) = inr content ->
  content = None \/ content = Some "" ->
  let sent := ChatCreate (persona_request rt lang a t) :: log1 in
  call_persona rt a log1 =
    (sent, inl (HTTPException 500 "GPT returned empty response")) /\
  analyze_profile rt request_json log =
    (sent, inl (HTTPException 500 "Analysis failed: 500: GPT returned empty response")) /\
  PyStr.contains "GPT returned empty response"
    "Analysis failed: 500: GPT returned empty response" = true.
Proof.
  intros Ha Hl Ht Hc He sent.
  pose proof (call_persona_empty _ _ _ _ _ _ Hl Ht Hc He) as Hp. fold sent in Hp.
  split; [exact Hp |]. split; [| reflexivity].
  unfold analyze_profile.
  rewrite (try_except_raises _ _ _ sent (HTTPException 500 "GPT returned empty response")).
  - reflexivity.
  - rewrite (analyze_profile_body_calls_persona _ _ _ _ _ Ha).
    apply bind_raises. exact Hp.
Qed.

Lemma empty_persona_completion_witness :
  snd (analyze_profile Demo.silent (inr (JDict Demo.body)) []) =
  inl (HTTPException 500 "Analysis failed: 500: GPT returned empty response").
Proof.
  destruct (empty_persona_completion Demo.silent (inr (JDict Demo.body)) []
              (fst (persona_call_arguments Demo.silent (inr (JDict Demo.body)) []))
              {| arg_movies := JStr "Inception"; arg_music := JStr "Daft Punk";
                 arg_brands := JStr "Nike"; arg_gender := JStr "male";
                 arg_qloo_suggestions := [JStr "Justice"; JStr "Air"];
                 arg_language := JStr "fr"; arg_variation_seed := JInt 0 |}
              "French" PyFloat.f0_8 None) as [_ [H _]].
  - vm_compute. reflexivity.
  - reflexivity.
  - reflexivity.
  - reflexivity.
  - left. reflexivity.
  - rewrite H. reflexivity.
Defined.

(** The empty string fails the request the same way. *)
Example blank_persona_completion :
  snd (analyze_profile Demo.blank (inr (JDict Demo.body)) []) =
  inl (HTTPException 500 "Analysis failed: 500: GPT returned empty response").
Proof. vm_compute. reflexivity. Qed.

Lemma cultural_map_degrades rt countries language log lang content :
  countries <> [] ->
  target_language_of language = inr lang ->
  chat_completions_create rt log (cultural_request lang countries) = inr content ->
  unusable rt content ->
  generate_cultural_map_insights rt countries language log =
  (ChatCreate (cultural_request lang countries) :: log, inr []).
Proof.
  intros Hn Hl Hc Hu. unfold generate_cultural_map_insights.
  destruct countries as [| c cs]; [congruence |].
  rewrite (bind_lift_ok _ _ _ _ Hl).
  unfold bind, chat. fold (cultural_request lang (c :: cs)). rewrite Hc.
  destruct Hu as [-> | [-> | [text_ [e [-> Hp]]]]]; try reflexivity.
  destruct (truthy_content (Some text_)); [| reflexivity].
  rewrite Hp. reflexivity.
Qed.

(** C4.  When the country completion is None, empty or not JSON, the
    Cultural Map Synthesizer returns the empty mapping and raises nothing;
    a request whose persona has parsed to an object then succeeds with
    countryInsights = {}. *)
Theorem unusable_country_completion rt request_json log log1 language parsed lang content :
  persona_stage rt request_json log = (log1, inr (language, JDict parsed)) ->
  target_language_of language = inr lang ->
  chat_completions_create rt log1 (cultural_request lang sample_countries) = inr content ->
  unusable rt content ->
  let sent := ChatCreate (cultural_request lang sample_countries) :: log1 in
  generate_cultural_map_insights rt sample_countries language log1 = (sent, inr []) /\
  analyze_profile rt request_json log =
    (sent,
     inr {| result := json_dumps rt (JDict parsed);
            culturalTwin := match lookup "culturalTwin" parsed with
                            | Some twin => twin
                            | None => JStr "Unknown"
                            end;
            countryInsights := [] |}).
Proof.
  intros Hs Hl Hc Hu sent.
  assert (Hg : generate_cultural_map_insights rt sample_countries language log1
               = (sent, inr [])).
  { apply cultural_map_degrades with (content := content); try assumption.
    discriminate. }
  split; [exact Hg |].
  unfold analyze_profile. apply try_except_returns.
  rewrite analyze_profile_body_stages, (bind_ok _ _ _ _ _ Hs).
  cbn [fst snd]. unfold insights_stage.
  rewrite (bind_ok _ _ _ _ _ Hg). reflexivity.
Qed.

Lemma unusable_country_completion_witness :
  snd (analyze_profile Demo.rambling (inr (JDict Demo.body)) []) =
  inr {| result := Demo.dumps Demo.persona; culturalTwin := JStr "Unknown";
         countryInsights := [] |}.
Proof.
  destruct (unusable_country_completion Demo.rambling (inr (JDict Demo.body)) []
              (fst (persona_stage Demo.rambling (inr (JDict Demo.body)) []))
              (JStr "fr") [("personaName", JStr "The Dreamer")] "French"
              (Some "Sorry, here are some thoughts instead.")) as [_ H].
  - vm_compute. reflexivity.
  - reflexivity.
  - reflexivity.
  - right. right.
    exists "Sorry, here are some thoughts instead.",
      (LibraryError "Expecting value: line 1 column 1 (char 0)").
    split; reflexivity.
  - rewrite H. reflexivity.
Defined.

(** An empty country completion degrades the same way. *)
Example empty_country_completion :
  snd (analyze_profile Demo.halfway (inr (JDict Demo.body)) []) =
  inr {| result := Demo.dumps Demo.persona; culturalTwin := JStr "Unknown";
         countryInsights := [] |}.
Proof. vm_compute. reflexivity. Qed.

(** ** Missing request fields *)

Lemma lookup_values k d v : lookup k d = Some v -> In v (values d).
Proof.
  induction d as [| [k' v'] d IH]; simpl; [discriminate |].
  destruct (String.eqb k' k); intros H.
  - injection H as ->. left. reflexivity.
  - right. apply IH. exact H.
Qed.

Lemma py_getitem_present d k v :
  lookup k d = Some v -> py_getitem (JDict d) k = inr v.
Proof. intros H. simpl. rewrite H. reflexivity. Qed.

Lemma py_getitem_missing d k :
  lookup k d = None -> py_getitem (JDict d) k = inl (KeyError k).
Proof. intros H. simpl. rewrite H. reflexivity. Qed.

(** A run that evaluates the arguments of the persona call has read all
    four required fields. *)
Lemma persona_call_arguments_reads rt d log log1 a :
  persona_call_arguments rt (inr (JDict d)) log = (log1, inr a) ->
  forall k, In k required_fields -> lookup k d <> None.
Proof.
  intros H. unfold persona_call_arguments in H.
  lift_step H body Hbody0. injection Hbody0 as <-.
  lift_step H variation Hvar.
  lift_step H language Hlang.
  lift_step H music_query Hmq.
  step H l1 music_id Hmusic.
  lift_step H movie_query Hvq.
  step H l2 movie_id Hmovie.
  lift_step H brand_query Hbq.
  step H l3 brand_id Hbrand.
  step H l4 music_trends Hmt.
  step H l5 movie_trends Hvt.
  step H l6 brand_trends Hbt.
  lift_step H movies Hmovies.
  lift_step H music Hmusic'.
  lift_step H brands Hbrands.
  lift_step H gender Hgender.
  intros k [<- | [<- | [<- | [<- | []]]]] Hk.
  - rewrite (py_getitem_missing _ _ Hk) in Hmq. discriminate Hmq.
  - rewrite (py_getitem_missing _ _ Hk) in Hvq. discriminate Hvq.
  - rewrite (py_getitem_missing _ _ Hk) in Hbq. discriminate Hbq.
  - rewrite (py_getitem_missing _ _ Hk) in Hgender. discriminate Hgender.
Qed.

Lemma analyze_profile_returns_reads rt d log log1 p :
  analyze_profile rt (inr (JDict d)) log = (log1, inr p) ->
  forall k, In k required_fields -> lookup k d <> None.
Proof.
  intros H.
  destruct (analyze_profile_cases rt (inr (JDict d)) log)
    as [[l [p' [Hb Ha]]] | [l [e [_ Ha]]]]; rewrite Ha in H; [| discriminate].
  rewrite analyze_profile_body_stages in Hb.
  step Hb l1 lp Hs. unfold persona_stage in Hs.
  step Hs l2 a Ha'.
  exact (persona_call_arguments_reads _ _ _ _ _ Ha').
Qed.

Lemma first_missing_mentions k :
  In k required_fields ->
  PyStr.contains k ("Analysis failed: '" ++ k ++ "'") = true.
Proof. intros [<- | [<- | [<- | [<- | []]]]]; reflexivity. Qed.

(** The first required field the handler fails to find ends the [try]
    with its [KeyError], unless a taste-graph call made before that lookup
    has raised. *)
Lemma analyze_profile_body_missing rt d log k :
  first_missing d = Some k ->
  exists log1 e,
    analyze_profile_body rt (inr (JDict d)) log = (log1, inl e) /\
    (e = KeyError k \/ raised_by_taste_graph rt d e log1).
Proof.
  intros Hk. unfold first_missing, required_fields, has_key in Hk.
  unfold analyze_profile_body.
  rewrite (bind_lift_ok _ _ _ _ eq_refl).
  rewrite (bind_lift_ok (py_get (JDict d) "variation" (JInt 0)) _ _ _ eq_refl).
  rewrite (bind_lift_ok (py_get (JDict d) "language" (JStr "en")) _ _ _ eq_refl).
  cbn [find] in Hk.
  destruct (lookup "music" d) as [q1 |] eqn:E1; cbn [negb] in Hk.
  2:{ injection Hk as <-. exists log, (KeyError "music"). split; [| left; reflexivity].
      rewrite (bind_lift_raises _ _ _ _ (py_getitem_missing _ _ E1)). reflexivity. }
  rewrite (bind_lift_ok _ _ _ _ (py_getitem_present _ _ _ E1)).
  destruct (autocomplete_entity rt q1 "artist" log) as [l1 [e1 | id1]] eqn:H1.
  { exists l1, e1. split; [apply (bind_raises _ _ _ _ _ H1) |].
    right. left. exists "music", "artist", q1, log.
    split; [simpl; tauto |]. split; assumption. }
  rewrite (bind_ok _ _ _ _ _ H1).
  destruct (lookup "movies" d) as [q2 |] eqn:E2; cbn [negb] in Hk.
  2:{ injection Hk as <-. exists l1, (KeyError "movies"). split; [| left; reflexivity].
      rewrite (bind_lift_raises _ _ _ _ (py_getitem_missing _ _ E2)). reflexivity. }
  rewrite (bind_lift_ok _ _ _ _ (py_getitem_present _ _ _ E2)).
  destruct (autocomplete_entity rt q2 "movie" l1) as [l2 [e2 | id2]] eqn:H2.
  { exists l2, e2. split; [apply (bind_raises _ _ _ _ _ H2) |].
    right. left. exists "movies", "movie", q2, l1.
    split; [simpl; tauto |]. split; assumption. }
  rewrite (bind_ok _ _ _ _ _ H2).
  destruct (lookup "brands" d) as [q3 |] eqn:E3; cbn [negb] in Hk.
  2:{ injection Hk as <-. exists l2, (KeyError "brands"). split; [| left; reflexivity].
      rewrite (bind_lift_raises _ _ _ _ (py_getitem_missing _ _ E3)). reflexivity. }
  rewrite (bind_lift_ok _ _ _ _ (py_getitem_present _ _ _ E3)).
  destruct (autocomplete_entity rt q3 "brand" l2) as [l3 [e3 | id3]] eqn:H3.
  { exists l3, e3. split; [apply (bind_raises _ _ _ _ _ H3) |].
    right. left. exists "brands", "brand", q3, l2.
    split; [simpl; tauto |]. split; assumption. }
  rewrite (bind_ok _ _ _ _ _ H3).
  destruct (get_qloo_trending rt id1 "artist" l3) as [l4 [e4 | t1]] eqn:H4.
  { exists l4, e4. split; [apply (bind_raises _ _ _ _ _ H4) |].
    right. right. exists id1, "artist", l3. exact H4. }
  rewrite (bind_ok _ _ _ _ _ H4).
  destruct (get_qloo_trending rt id2 "movie" l4) as [l5 [e5 | t2]] eqn:H5.
  { exists l5, e5. split; [apply (bind_raises _ _ _ _ _ H5) |].
    right. right. exists id2, "movie", l4. exact H5. }
  rewrite (bind_ok _ _ _ _ _ H5).
  destruct (get_qloo_trending rt id3 "brand" l5) as [l6 [e6 | t3]] eqn:H6.
  { exists l6, e6. split; [apply (bind_raises _ _ _ _ _ H6) |].
    right. right. exists id3, "brand", l5. exact H6. }
  rewrite (bind_ok _ _ _ _ _ H6).
  cbv zeta.
  rewrite (bind_lift_ok _ _ _ _ (py_getitem_present _ _ _ E2)).
  rewrite (bind_lift_ok _ _ _ _ (py_getitem_present _ _ _ E1)).
  rewrite (bind_lift_ok _ _ _ _ (py_getitem_present _ _ _ E3)).
  destruct (lookup "gender" d) as [q4 |] eqn:E4; cbn [negb] in Hk; [discriminate |].
  injection Hk as <-. exists l6, (KeyError "gender"). split; [| left; reflexivity].
  rewrite (bind_lift_raises _ _ _ _ (py_getitem_missing _ _ E4)). reflexivity.
Qed.

Lemma first_missing_exists d k :
  In k required_fields -> lookup k d = None ->
  exists k', first_missing d = Some k'.
Proof.
  intros Hin Hk. unfold first_missing.
  destruct (find _ required_fields) as [k' |] eqn:E; [exists k'; reflexivity |].
  exfalso. pose proof (find_none _ _ E k Hin) as H. unfold has_key in H.
  rewrite Hk in H. discriminate H.
Qed.

Lemma first_missing_is_missing d k :
  first_missing d = Some k -> In k required_fields /\ lookup k d = None.
Proof.
  intros H. apply find_some in H. destruct H as [Hin H]. split; [exact Hin |].
  unfold has_key in H. destruct (lookup k d); [discriminate | reflexivity].
Qed.

Lemma well_behaved_taste_graph rt d e log1 :
  (forall field category q l,
      In (field, category) query_fields -> lookup field d = Some q ->
      exists l' id, autocomplete_entity rt q category l = (l', inr id)) ->
  (forall id category l,
      exists l' names, get_qloo_trending rt id category l = (l', inr names)) ->
  ~ raised_by_taste_graph rt d e log1.
Proof.
  intros Hq Ht [[field [category [q [l [Hin [Hl H]]]]]] | [id [category [l H]]]].
  - destruct (Hq field category q l Hin Hl) as [l' [id H']].
    rewrite H in H'. discriminate H'.
  - destruct (Ht id category l) as [l' [names H']].
    rewrite H in H'. discriminate H'.
Qed.

(** C9, as the code has it.  A request body without one of movies, music,
    brands, gender never gets a payload: the handler answers with status
    500 and the message of what was raised.  That is the KeyError of the
    first missing field in reading order (music, movies, brands, gender),
    whose detail quotes the key, unless the Entity Resolver (on a query
    field read before it) or the Trend Fetcher has raised first; and it is
    the KeyError whenever those calls return normally.  The key is [k]
    itself when [k] is the only field missing. *)
Theorem missing_required_field rt d log k :
  In k required_fields ->
  lookup k d = None ->
  exists k' log1 e,
    first_missing d = Some k' /\
    In k' required_fields /\ lookup k' d = None /\
    ((forall j, In j required_fields -> lookup j d = None -> j = k) -> k' = k) /\
    analyze_profile_body rt (inr (JDict d)) log = (log1, inl e) /\
    analyze_profile rt (inr (JDict d)) log =
      (log1, inl (HTTPException 500 ("Analysis failed: " ++ str_exn e))) /\
    (e = KeyError k' \/ raised_by_taste_graph rt d e log1) /\
    (e = KeyError k' ->
     str_exn e = ("'" ++ k' ++ "'")%string /\
     PyStr.contains k' ("Analysis failed: " ++ str_exn e) = true) /\
    ((forall field category q l,
         In (field, category) query_fields -> lookup field d = Some q ->
         exists l' id, autocomplete_entity rt q category l = (l', inr id)) ->
     (forall id category l,
         exists l' names, get_qloo_trending rt id category l = (l', inr names)) ->
     e = KeyError k').
Proof.
  intros Hin Hk.
  destruct (first_missing_exists d k Hin Hk) as [k' Hk'].
  destruct (first_missing_is_missing d k' Hk') as [Hin' Hnone].
  destruct (analyze_profile_body_missing rt d log k' Hk') as [log1 [e [Hb He]]].
  exists k', log1, e.
  split; [exact Hk' |]. split; [exact Hin' |]. split; [exact Hnone |].
  split; [intros Honly; apply Honly; assumption |].
  split; [exact Hb |].
  split; [unfold analyze_profile; rewrite (try_except_raises _ _ _ _ _ Hb); reflexivity |].
  split; [exact He |].
  split.
  - intros ->. split; [reflexivity |]. apply first_missing_mentions. exact Hin'.
  - intros Hq Ht. destruct He as [He | He]; [exact He |].
    exfalso. exact (well_behaved_taste_graph rt d e log1 Hq Ht He).
Qed.

Lemma disconnected_autocomplete field category q l :
  In (field, category) query_fields ->
  lookup field Demo.body_without_gender = Some q ->
  exists l' id, autocomplete_entity Demo.disconnected q category l = (l', inr id).
Proof.
  intros H Hl. simpl in H.
  destruct H as [H | [H | [H | []]]]; injection H as <- <-;
    cbv in Hl; injection Hl as <-;
    rewrite (autocomplete_entity_run Demo.disconnected _ _ l
               {| status_code := 503; text := "Service Unavailable" |} eq_refl);
    eexists; exists JNull; reflexivity.
Qed.

Lemma disconnected_trending id category l :
  exists l' names, get_qloo_trending Demo.disconnected id category l = (l', inr names).
Proof.
  destruct (truthy id) eqn:E.
  - rewrite (get_qloo_trending_run Demo.disconnected id category l
               {| status_code := 503; text := "Service Unavailable" |} E eq_refl).
    eexists. exists []. reflexivity.
  - exists l, []. apply get_qloo_trending_falsy. exact E.
Qed.

Lemma missing_required_field_witness :
  snd (analyze_profile Demo.disconnected (inr (JDict Demo.body_without_gender)) []) =
  inl (HTTPException 500 "Analysis failed: 'gender'").
Proof.
  destruct (missing_required_field Demo.disconnected Demo.body_without_gender []
              "gender") as [k' [log1 [e [Hfirst [_ [_ [_ [_ [Ha [_ [_ He]]]]]]]]]]].
  - simpl. tauto.
  - reflexivity.
  - rewrite Ha, (He disconnected_autocomplete disconnected_trending).
    cbv in Hfirst. injection Hfirst as <-. reflexivity.
Defined.

(** C9 as stated fails when something raises before the lookup: with a
    [music] that is no string the Entity Resolver raises on the first call,
    and the detail of the 500 says nothing of the missing [gender]. *)
Lemma missing_field_masked :
  analyze_profile Demo.talkative (inr (JDict Cases.numeric_music_without_gender)) [] =
    ([], inl (HTTPException 500 "Analysis failed: quote_from_bytes() expected bytes")) /\
  lookup "gender" Cases.numeric_music_without_gender = None /\
  PyStr.contains "gender" "Analysis failed: quote_from_bytes() expected bytes" = false /\
  ~ (forall rt d log k,
        In k required_fields -> lookup k d = None ->
        exists log1 detail,
          analyze_profile rt (inr (JDict d)) log = (log1, inl (HTTPException 500 detail)) /\
          PyStr.contains k detail = true).
Proof.
  split; [reflexivity |]. split; [reflexivity |]. split; [reflexivity |].
  intros H.
  destruct (H Demo.talkative Cases.numeric_music_without_gender [] "gender")
    as [log1 [detail [Ha Hc]]].
  - simpl. tauto.
  - reflexivity.
  - cbv in Ha. injection Ha as _ <-. cbv in Hc. discriminate Hc.
Qed.

From Stdlib Require Import Lia.

(** * Further properties *)

(** ** What a response is made of *)

Lemma call_persona_inv rt a log log1 ai :
  call_persona rt a log = (log1, inr ai) ->
  exists lang t content,
    target_language_of (arg_language a) = inr lang /\
    capped_temperature (arg_variation_seed a) = inr t /\
    chat_completions_create rt log (persona_request rt lang a t) = inr (Some content) /\
    content <> "" /\
    ai = PyStr.strip content /\
    log1 = ChatCreate (persona_request rt lang a t) :: log.
Proof.
  unfold call_persona, generate_persona_from_taste. intros H.
  lift_step H lang Hl. lift_step H t Ht.
  step H l1 content Hc. unfold chat in Hc. fold (persona_request rt lang a t) in Hc.
  injection Hc as <- Hc.
  destruct content as [content |]; [| discriminate H].
  unfold truthy_content in H.
  destruct (String.eqb_spec content "") as [-> | Hne]; [discriminate H |].
  cbn [negb] in H. unfold ret in H. injection H as <- <-.
  exists lang, t, content. repeat split; assumption.
Qed.

Lemma call_persona_returns rt a log lang t content :
  target_language_of (arg_language a) = inr lang ->
  capped_temperature (arg_variation_seed a) = inr t ->
  chat_completions_create rt log (persona_request rt lang a t) = inr (Some content) ->
  content <> "" ->
  call_persona rt a log =
  (ChatCreate (persona_request rt lang a t) :: log, inr (PyStr.strip content)).
Proof.
  intros Hl Ht Hc Hne. unfold call_persona, generate_persona_from_taste.
  rewrite (bind_lift_ok _ _ _ _ Hl), (bind_lift_ok _ _ _ _ Ht).
  unfold bind, chat. fold (persona_request rt lang a t). rewrite Hc.
  unfold truthy_content. destruct (String.eqb_spec content ""); [contradiction |].
  reflexivity.
Qed.

Lemma persona_stage_inv rt request_json log log1 language parsed :
  persona_stage rt request_json log = (log1, inr (language, parsed)) ->
  exists l0 a ai,
    persona_call_arguments rt request_json log = (l0, inr a) /\
    call_persona rt a l0 = (log1, inr ai) /\
    json_loads rt ai = inr parsed /\
    language = arg_language a.
Proof.
  unfold persona_stage. intros H.
  step H l0 a Ha. step H l1 ai Hai. lift_step H parsed' Hp.
  unfold ret in H. injection H as <- <- <-.
  exists l0, a, ai. repeat split; assumption.
Qed.

(** From the evaluated arguments and the text the persona call returned,
    the [try] body goes on with [json.loads]. *)
Lemma analyze_profile_body_parses rt request_json log l0 a l1 ai :
  persona_call_arguments rt request_json log = (l0, inr a) ->
  call_persona rt a l0 = (l1, inr ai) ->
  analyze_profile_body rt request_json log =
  (parsed <- lift (json_loads rt ai) ;;
   insights_stage rt (arg_language a) parsed) l1.
Proof.
  intros Ha Hp. rewrite (analyze_profile_body_calls_persona _ _ _ _ _ Ha).
  unfold call_persona in Hp. rewrite (bind_ok _ _ _ _ _ Hp). reflexivity.
Qed.

Lemma analyze_profile_returns_inv rt request_json log log1 p :
  analyze_profile rt request_json log = (log1, inr p) ->
  exists l1 language parsed,
    persona_stage rt request_json log = (l1, inr (language, parsed)) /\
    insights_stage rt language parsed l1 = (log1, inr p).
Proof.
  intros H.
  destruct (analyze_profile_cases rt request_json log)
    as [[l [p' [Hb Ha]]] | [l [e [_ Ha]]]]; rewrite Ha in H; [| discriminate].
  injection H as -> ->.
  rewrite analyze_profile_body_stages in Hb.
  step Hb l1 lp Hs. destruct lp as [language parsed]. cbn [fst snd] in Hb.
  exists l1, language, parsed. split; assumption.
Qed.

Lemma insights_stage_inv rt language parsed log log1 p :
  insights_stage rt language parsed log = (log1, inr p) ->
  exists d fields,
    generate_cultural_map_insights rt sample_countries language log = (log1, inr d) /\
    parsed = JDict fields /\
    p = {| result := json_dumps rt parsed;
           culturalTwin := match lookup "culturalTwin" fields with
                           | Some twin => twin
                           | None => JStr "Unknown"
                           end;
           countryInsights := d |}.
Proof.
  unfold insights_stage. intros H.
  step H l1 d Hd. lift_step H twin Ht.
  unfold ret in H. injection H as <- <-.
  destruct parsed; try discriminate Ht.
  simpl in Ht. injection Ht as <-.
  exists d, d0. repeat split. exact Hd.
Qed.

(** X1.  A successful response is made of the persona completion alone:
    the completion was not empty, its stripped text parsed to a JSON
    object, [result] is that object serialised again (not the text the
    model wrote), and [culturalTwin] is the object's field of that name, or
    "Unknown" when it has none. *)
Theorem successful_response rt request_json log log1 (p : payload) :
  analyze_profile rt request_json log = (log1, inr p) ->
  exists l0 a lang t content fields,
    persona_call_arguments rt request_json log = (l0, inr a) /\
    chat_completions_create rt l0 (persona_request rt lang a t) = inr (Some content) /\
    content <> "" /\
    json_loads rt (PyStr.strip content) = inr (JDict fields) /\
    result p = json_dumps rt (JDict fields) /\
    culturalTwin p = match lookup "culturalTwin" fields with
                     | Some twin => twin
                     | None => JStr "Unknown"
                     end.
Proof.
  intros H.
  destruct (analyze_profile_returns_inv _ _ _ _ _ H) as [l1 [language [parsed [Hs Hi]]]].
  destruct (persona_stage_inv _ _ _ _ _ _ Hs) as [l0 [a [ai [Ha [Hp [Hj _]]]]]].
  destruct (call_persona_inv _ _ _ _ _ Hp)
    as [lang [t [content [_ [_ [Hc [Hne [-> _]]]]]]]].
  destruct (insights_stage_inv _ _ _ _ _ _ Hi) as [d [fields [_ [-> ->]]]].
  exists l0, a, lang, t, content, fields.
  repeat split; assumption.
Qed.

Lemma successful_response_witness :
  exists content fields,
    json_loads Demo.talkative (PyStr.strip content) = inr (JDict fields) /\
    lookup "culturalTwin" fields = None /\
    Demo.dumps Demo.persona = json_dumps Demo.talkative (JDict fields).
Proof.
  destruct (successful_response Demo.talkative (inr (JDict Demo.body)) []
              (fst (analyze_profile Demo.talkative (inr (JDict Demo.body)) []))
              {| result := Demo.dumps Demo.persona; culturalTwin := JStr "Unknown";
                 countryInsights := [(JStr "France", Demo.france)] |})
    as [l0 [a [lang [t [content [fields [_ [_ [_ [Hj [Hr Ht]]]]]]]]]]].
  - vm_compute. reflexivity.
  - exists content, fields. split; [exact Hj |]. split; [| exact Hr].
    cbn [culturalTwin] in Ht. unfold Demo.talkative, Demo.runtime_with in Hj.
    cbn [json_loads] in Hj. unfold Demo.loads in Hj.
    destruct (find _ Demo.documents) as [v |] eqn:E; [| discriminate Hj].
    injection Hj as ->. apply find_some in E. destruct E as [Hin _].
    simpl in Hin.
    destruct Hin as [Hv | [Hv | [Hv | [Hv | [Hv | []]]]]];
      try discriminate Hv; injection Hv as <-; try discriminate Ht; reflexivity.
Defined.

(** ** Persona completions that do not parse to an object *)

Lemma analyze_profile_json_rejected rt request_json log l0 a l1 ai e :
  persona_call_arguments rt request_json log = (l0, inr a) ->
  call_persona rt a l0 = (l1, inr ai) ->
  json_loads rt ai = inl e ->
  analyze_profile rt request_json log =
  (l1, inl (HTTPException 500 ("Analysis failed: " ++ str_exn e))).
Proof.
  intros Ha Hp Hj. unfold analyze_profile.
  rewrite (try_except_raises _ _ _ l1 e); [reflexivity |].
  rewrite (analyze_profile_body_parses _ _ _ _ _ _ _ Ha Hp).
  apply bind_lift_raises. exact Hj.
Qed.

(** [strip] removes the white space that is not ASCII as well, so a
    completion padded with it is served like the bare one. *)
Example padded_persona_completion :
  PyStr.strip Cases.padded_text = Demo.dumps Demo.persona /\
  snd (analyze_profile Cases.padded (inr (JDict Demo.body)) []) =
  inr {| result := Demo.dumps Demo.persona; culturalTwin := JStr "Unknown";
         countryInsights := [(JStr "France", Demo.france)] |}.
Proof. split; vm_compute; reflexivity. Qed.

(** X2.  When the persona completion is not empty but its stripped text is
    not JSON, [json.loads] raises in the handler, nothing catches it before
    the top level, and the request ends with status 500 and the decoder's
    message; the persona call is the last call made, so the country
    completion is never requested. *)
Theorem malformed_persona_json rt request_json log l0 a lang t content e :
  persona_call_arguments rt request_json log = (l0, inr a) ->
  target_language_of (arg_language a) = inr lang ->
  capped_temperature (arg_variation_seed a) = inr t ->
  chat_completions_create rt l0 (persona_request rt lang a t) = inr (Some content) ->
  content <> "" ->
  json_loads rt (PyStr.strip content) = inl e ->
  analyze_profile rt request_json log =
  (ChatCreate (persona_request rt lang a t) :: l0,
   inl (HTTPException 500 ("Analysis failed: " ++ str_exn e))).
Proof.
  intros Ha Hl Ht Hc Hne Hj.
  pose proof (call_persona_returns _ _ _ _ _ _ Hl Ht Hc Hne) as Hp.
  exact (analyze_profile_json_rejected _ _ _ _ _ _ _ _ Ha Hp Hj).
Qed.

Lemma malformed_persona_json_witness :
  snd (analyze_profile Cases.chatty (inr (JDict Demo.body)) []) =
  inl (HTTPException 500 "Analysis failed: Expecting value: line 1 column 1 (char 0)").
Proof.
  rewrite (malformed_persona_json Cases.chatty (inr (JDict Demo.body)) []
             (fst (persona_call_arguments Cases.chatty (inr (JDict Demo.body)) []))
             (Cases.arguments (JStr "fr") (JInt 0) [JStr "Justice"; JStr "Air"])
             "French" PyFloat.f0_8 "I would rather describe you in words."
             (LibraryError "Expecting value: line 1 column 1 (char 0)")).
  - reflexivity.
  - vm_compute. reflexivity.
  - reflexivity.
  - reflexivity.
  - reflexivity.
  - discriminate.
  - reflexivity.
Defined.





Lemma cultural_map_returns_log rt countries language log log1 d :
  countries <> [] ->
  generate_cultural_map_insights rt countries language log = (log1, inr d) ->
  exists lang,
    target_language_of language = inr lang /\
    log1 = ChatCreate (cultural_request lang countries) :: log.
Proof.
  intros Hn H. unfold generate_cultural_map_insights in H.
  destruct countries as [| c cs]; [congruence |].
  lift_step H lang Hl. exists lang. split; [exact Hl |].
  pose proof (cultural_sends rt (c :: cs) language log lang Hn Hl) as Hs.
  unfold generate_cultural_map_insights in Hs.
  rewrite (bind_lift_ok _ _ _ _ Hl), H in Hs. exact Hs.
Qed.



(** ** How the Cultural Map Synthesizer fails and what it keeps *)

(** X5.  The Cultural Map Synthesizer raises in two ways only: the language
    value cannot be hashed (no call is made), or the completion call itself
    raises.  Nothing in a completion it receives makes it raise. *)
Theorem cultural_map_failures rt countries language log log1 e :
  generate_cultural_map_insights rt countries language log = (log1, inl e) ->
  countries <> [] /\
  ((target_language_of language = inl e /\ log1 = log) \/
   exists lang,
     target_language_of language = inr lang /\
     chat_completions_create rt log (cultural_request lang countries) = inl e /\
     log1 = ChatCreate (cultural_request lang countries) :: log).
Proof.
  unfold generate_cultural_map_insights. destruct countries as [| c cs].
  { intros H. discriminate H. }
  intros H. split; [discriminate |].
  unfold bind, lift in H.
  destruct (target_language_of language) as [e0 | lang].
  { injection H as <- <-. left. split; reflexivity. }
  right. exists lang. split; [reflexivity |].
  unfold chat in H. fold (cultural_request lang (c :: cs)) in H.
  destruct (chat_completions_create rt log (cultural_request lang (c :: cs)))
    as [e0 | [text_ |]].
  - injection H as <- <-. split; reflexivity.
  - destruct (truthy_content (Some text_)); [| discriminate H].
    destruct (rbind _ _); discriminate H.
  - discriminate H.
Qed.

Lemma cultural_map_failures_witness :
  generate_cultural_map_insights Cases.unreachable sample_countries (JStr "fr") [] =
  ([ChatCreate (cultural_request "French" sample_countries)],
   inl (LibraryError "Connection error.")) /\
  chat_completions_create Cases.unreachable []
    (cultural_request "French" sample_countries) = inl (LibraryError "Connection error.").
Proof.
  split; [reflexivity |].
  destruct (cultural_map_failures Cases.unreachable sample_countries (JStr "fr") []
              [ChatCreate (cultural_request "French" sample_countries)]
              (LibraryError "Connection error.") eq_refl)
    as [_ [[H _] | [lang [Hl [Hc _]]]]].
  - discriminate H.
  - injection Hl as <-. exact Hc.
Defined.

Lemma country_items_breaks item rest acc :
  breaks_comprehension item = true ->
  exists e, country_items (item :: rest) acc = inl e.
Proof.
  intros H. cbn [country_items].
  destruct item as [| b | z | f | s | l | d]; cbn [py_in rbind]; try (eexists; reflexivity).
  - cbn [breaks_comprehension] in H. rewrite H. cbn [py_getitem rbind].
    eexists; reflexivity.
  - cbn [breaks_comprehension] in H. rewrite H. cbn [py_getitem rbind].
    eexists; reflexivity.
  - cbn [breaks_comprehension] in H. unfold has_key.
    destruct (lookup "country" d) as [v |] eqn:E; [| discriminate H].
    cbn [py_getitem rbind]. rewrite E. cbn [rbind].
    destruct v; try discriminate H; cbn [py_hash_check rbind]; eexists; reflexivity.
Qed.

Lemma country_items_passes item rest acc :
  breaks_comprehension item = false ->
  country_items (item :: rest) acc =
  match country_of item with
  | Some k => country_items rest (dict_set k item acc)
  | None => country_items rest acc
  end.
Proof.
  intros H. cbn [country_items].
  destruct item as [| b | z | f | s | l | d]; try discriminate H;
    cbn [py_in rbind country_of].
  - cbn [breaks_comprehension] in H. rewrite H. reflexivity.
  - cbn [breaks_comprehension] in H. rewrite H. reflexivity.
  - cbn [breaks_comprehension] in H. unfold has_key.
    destruct (lookup "country" d) as [v |] eqn:E; [| reflexivity].
    cbn [py_getitem rbind]. rewrite E. cbn [rbind].
    destruct v; try discriminate H; reflexivity.
Qed.

Lemma country_items_all_or_nothing items :
  forall acc,
    if existsb breaks_comprehension items
    then exists e, country_items items acc = inl e
    else exists d, country_items items acc = inr d.
Proof.
  induction items as [| item rest IH]; intros acc; cbn [existsb].
  - exists acc. reflexivity.
  - destruct (breaks_comprehension item) eqn:E; cbn [orb].
    + apply country_items_breaks. exact E.
    + rewrite (country_items_passes _ _ _ E).
      destruct (country_of item); apply IH.
Qed.

(** X6.  The mapping is all or nothing.  When the country completion parses
    to a list, one item on which the comprehension raises (a number, null,
    a string or list that holds "country", an object whose country is a
    list or object) makes the Synthesizer return the empty mapping, the
    entries of the well-formed items included; without such an item the
    comprehension succeeds and its result is returned. *)
Theorem one_bad_item_empties_the_mapping rt countries language log lang text_ items :
  countries <> [] ->
  target_language_of language = inr lang ->
  chat_completions_create rt log (cultural_request lang countries) = inr (Some text_) ->
  text_ <> "" ->
  json_loads rt text_ = inr (JList items) ->
  (existsb breaks_comprehension items = true ->
   snd (generate_cultural_map_insights rt countries language log) = inr []) /\
  (existsb breaks_comprehension items = false ->
   exists d,
     country_items items [] = inr d /\
     snd (generate_cultural_map_insights rt countries language log) = inr d).
Proof.
  intros Hn Hl Hc Hne Hj.
  assert (Hrun : snd (generate_cultural_map_insights rt countries language log) =
                 inr match country_items items [] with inr d => d | inl _ => [] end).
  { unfold generate_cultural_map_insights.
    destruct countries as [| c cs]; [congruence |].
    rewrite (bind_lift_ok _ _ _ _ Hl).
    unfold bind, chat. fold (cultural_request lang (c :: cs)). rewrite Hc.
    unfold truthy_content. destruct (String.eqb_spec text_ ""); [contradiction |].
    cbn [negb]. rewrite Hj. cbn [rbind]. unfold country_comprehension.
    cbn [py_iter rbind]. destruct (country_items items []); reflexivity. }
  pose proof (country_items_all_or_nothing items []) as Hall.
  split; intros Hb; rewrite Hb in Hall.
  - destruct Hall as [e He]. rewrite Hrun, He. reflexivity.
  - destruct Hall as [d Hd]. exists d. split; [exact Hd |].
    rewrite Hrun, Hd. reflexivity.
Qed.

Lemma one_bad_item_empties_the_mapping_witness :
  snd (generate_cultural_map_insights Cases.mixed sample_countries (JStr "fr")
         [ChatCreate (persona_request Cases.mixed "French"
                        (Cases.arguments (JStr "fr") (JInt 0) []) PyFloat.f0_8)])
  = inr [].
Proof.
  apply (one_bad_item_empties_the_mapping Cases.mixed sample_countries (JStr "fr")
           [ChatCreate (persona_request Cases.mixed "French"
                          (Cases.arguments (JStr "fr") (JInt 0) []) PyFloat.f0_8)]
           "French" (Demo.dumps Cases.mixed_insights) [Demo.france; JInt 5]).
  - discriminate.
  - reflexivity.
  - reflexivity.
  - discriminate.
  - reflexivity.
  - reflexivity.
Defined.

(** ** Duplicate countries *)

Lemma key_eqb_str k c : key_eqb k (JStr c) = true -> k = JStr c.
Proof.
  destruct k; simpl; try discriminate.
  intros H. apply String.eqb_eq in H. subst. reflexivity.
Qed.

Lemma dict_get_set_same c v d :
  dict_get (JStr c) (dict_set (JStr c) v d) = Some v.
Proof.
  induction d as [| [k' v'] d IH]; cbn [dict_set dict_get].
  - cbn [key_eqb]. rewrite String.eqb_refl. reflexivity.
  - destruct (key_eqb k' (JStr c)) eqn:E; cbn [dict_get]; rewrite E;
      [reflexivity | exact IH].
Qed.

Lemma dict_get_set_other c0 c v d :
  c0 <> c ->
  dict_get (JStr c) (dict_set (JStr c0) v d) = dict_get (JStr c) d.
Proof.
  intros Hne. induction d as [| [k' v'] d IH]; cbn [dict_set dict_get].
  - cbn [key_eqb]. apply String.eqb_neq in Hne. rewrite Hne. reflexivity.
  - destruct (key_eqb k' (JStr c0)) eqn:E; cbn [dict_get].
    + apply key_eqb_str in E. subst k'. cbn [key_eqb].
      apply String.eqb_neq in Hne. rewrite Hne. reflexivity.
    + rewrite IH. reflexivity.
Qed.

Lemma dict_set_nodup c v d :
  NoDup (keys d) -> NoDup (keys (dict_set (JStr c) v d)).
Proof.
  induction d as [| [k' v'] d IH]; cbn [dict_set keys map fst]; intros H.
  - constructor; [intros [] | constructor].
  - inversion H as [| ? ? Hnot Hnd]; subst.
    destruct (key_eqb k' (JStr c)) eqn:E; cbn [map fst].
    + constructor; assumption.
    + constructor; [| exact (IH Hnd)].
      intros Hin. destruct (dict_set_keys _ _ _ _ Hin) as [Hold | ->].
      * exact (Hnot Hold).
      * cbn [key_eqb] in E. rewrite String.eqb_refl in E. discriminate E.
Qed.

Lemma dict_set_length k v d : (List.length (dict_set k v d) <= S (List.length d))%nat.
Proof.
  induction d as [| [k' v'] d IH]; cbn [dict_set List.length]; [lia |].
  destruct (key_eqb k' k); cbn [List.length]; lia.
Qed.

Lemma plain_item_passes item :
  plain_item item -> breaks_comprehension item = false.
Proof.
  intros [d [-> [H | [c H]]]]; cbn [breaks_comprehension]; rewrite H; reflexivity.
Qed.

Lemma country_items_plain items :
  Forall plain_item items ->
  forall acc,
    NoDup (keys acc) ->
    (forall k, In k (keys acc) -> exists c, k = JStr c) ->
    exists d,
      country_items items acc = inr d /\
      NoDup (keys d) /\
      (forall k, In k (keys d) -> exists c, k = JStr c) /\
      (List.length d <= List.length items + List.length acc)%nat /\
      forall c, dict_get (JStr c) d =
                match last_named c items with
                | Some found => Some found
                | None => dict_get (JStr c) acc
                end.
Proof.
  induction 1 as [| item rest Hitem _ IH]; intros acc Hnd Hstr.
  - exists acc. repeat split; try assumption. cbn [List.length]. lia.
  - rewrite (country_items_passes _ _ _ (plain_item_passes _ Hitem)).
    destruct Hitem as [f [-> [Hc | [c0 Hc]]]]; cbn [country_of]; rewrite Hc.
    + destruct (IH acc Hnd Hstr) as [d [Hd [Hn [Hs [Hlen Hget]]]]].
      exists d. repeat split; try assumption.
      * cbn [List.length]. lia.
      * intros c. rewrite Hget. cbn [last_named].
        unfold names_country. cbn [country_of]. rewrite Hc.
        destruct (last_named c rest); reflexivity.
    + destruct (IH (dict_set (JStr c0) (JDict f) acc)) as [d [Hd [Hn [Hs [Hlen Hget]]]]].
      * apply dict_set_nodup. exact Hnd.
      * intros k Hk. destruct (dict_set_keys _ _ _ _ Hk) as [Hold | ->].
        -- exact (Hstr k Hold).
        -- exists c0. reflexivity.
      * exists d. repeat split; try assumption.
        -- pose proof (dict_set_length (JStr c0) (JDict f) acc) as Hset.
           cbn [List.length]. lia.
        -- intros c. rewrite Hget. cbn [last_named].
           unfold names_country. cbn [country_of]. rewrite Hc.
           destruct (last_named c rest); [reflexivity |].
           destruct (String.eqb_spec c0 c) as [-> | Hne].
           ++ apply dict_get_set_same.
           ++ apply dict_get_set_other. exact Hne.
Qed.

(** X7.  On items of the requested shape (objects whose country, when
    present, is a string) the comprehension never fails; its mapping has
    one entry per country named, no key twice, never more entries than
    items, and under each country the last item that names it: a later
    item replaces an earlier one for the same country. *)
Theorem country_mapping_last_wins items :
  Forall plain_item items ->
  exists d,
    country_items items [] = inr d /\
    NoDup (keys d) /\
    (List.length d <= List.length items)%nat /\
    (forall k, In k (keys d) -> exists c, k = JStr c) /\
    forall c, dict_get (JStr c) d = last_named c items.
Proof.
  intros H.
  destruct (country_items_plain items H [] (NoDup_nil _)) as [d [Hd [Hn [Hs [Hlen Hget]]]]].
  { intros k []. }
  exists d. split; [exact Hd |]. split; [exact Hn |].
  split; [cbn [List.length] in Hlen; lia |].
  split; [exact Hs |].
  intros c. rewrite Hget. destruct (last_named c items); reflexivity.
Qed.

Lemma plain_with_country d c :
  lookup "country" d = Some (JStr c) -> plain_item (JDict d).
Proof. intros H. exists d. split; [reflexivity | right; exists c; exact H]. Qed.

Lemma plain_without_country d :
  lookup "country" d = None -> plain_item (JDict d).
Proof. intros H. exists d. split; [reflexivity | left; exact H]. Qed.

Lemma country_mapping_last_wins_witness :
  exists d,
    country_items [Cases.korea_old; Cases.anonymous; Cases.japan; Cases.korea_new] []
      = inr d /\
    dict_get (JStr "South Korea") d = Some Cases.korea_new /\
    dict_get (JStr "Japan") d = Some Cases.japan /\
    dict_get (JStr "UK") d = None.
Proof.
  destruct (country_mapping_last_wins
              [Cases.korea_old; Cases.anonymous; Cases.japan; Cases.korea_new])
    as [d [Hd [_ [_ [_ Hget]]]]].
  - repeat constructor;
      first [ eapply plain_with_country; reflexivity
            | apply plain_without_country; reflexivity ].
  - exists d. split; [exact Hd |]. rewrite !Hget. repeat split.
Defined.

Example country_mapping_example :
  country_items [Cases.korea_old; Cases.anonymous; Cases.japan; Cases.korea_new] []
  = inr [(JStr "South Korea", Cases.korea_new); (JStr "Japan", Cases.japan)].
Proof. reflexivity. Qed.

(** ** The calls a request makes *)

Lemma autocomplete_entity_inv rt q category log log1 id :
  autocomplete_entity rt q category log = (log1, inr id) ->
  exists query,
    q = JStr query /\
    log1 = RequestsGet (autocomplete_url rt query) (getenv rt "QLOO_API_KEY") :: log.
Proof.
  unfold autocomplete_entity. intros H.
  lift_step H safe_query Hq.
  destruct q; try discriminate Hq. cbn [py_quote] in Hq. injection Hq as <-.
  step H l1 response Hr. unfold http_get in Hr. injection Hr as <- _.
  exists s. split; [reflexivity |].
  destruct (status_code response =? 200).
  - unfold lift in H. injection H as <- _. reflexivity.
  - unfold ret in H. injection H as <- _. reflexivity.
Qed.

Lemma get_qloo_trending_inv rt entity_id category log log1 names :
  get_qloo_trending rt entity_id category log = (log1, inr names) ->
  (truthy entity_id = false /\ log1 = log /\ names = []) \/
  (truthy entity_id = true /\
   log1 = RequestsGet (trending_url rt (date_today rt log) entity_id category)
            (getenv rt "QLOO_API_KEY") :: log).
Proof.
  unfold get_qloo_trending. destruct (truthy entity_id); cbn [negb]; intros H.
  - right. split; [reflexivity |].
    step H l1 today_ Ht. unfold today in Ht. injection Ht as <- <-.
    step H l2 response Hr. unfold http_get in Hr. injection Hr as <- _.
    unfold trending_url. cbv zeta.
    destruct (status_code response =? 200).
    + unfold lift in H. injection H as <- _. reflexivity.
    + unfold ret in H. injection H as <- _. reflexivity.
  - left. unfold ret in H. injection H as <- <-. repeat split.
Qed.

(** Everything the handler did when the arguments of the persona call are
    evaluated. *)
Lemma persona_call_arguments_inv rt request_json log log1 a :
  persona_call_arguments rt request_json log = (log1, inr a) ->
  exists body music_id movie_id brand_id l1 l2 l3 l4 l5
         music_trends movie_trends brand_trends,
    request_json = inr body /\
    py_get body "variation" (JInt 0) = inr (arg_variation_seed a) /\
    py_get body "language" (JStr "en") = inr (arg_language a) /\
    py_getitem body "music" = inr (arg_music a) /\
    py_getitem body "movies" = inr (arg_movies a) /\
    py_getitem body "brands" = inr (arg_brands a) /\
    py_getitem body "gender" = inr (arg_gender a) /\
    autocomplete_entity rt (arg_music a) "artist" log = (l1, inr music_id) /\
    autocomplete_entity rt (arg_movies a) "movie" l1 = (l2, inr movie_id) /\
    autocomplete_entity rt (arg_brands a) "brand" l2 = (l3, inr brand_id) /\
    get_qloo_trending rt music_id "artist" l3 = (l4, inr music_trends) /\
    get_qloo_trending rt movie_id "movie" l4 = (l5, inr movie_trends) /\
    get_qloo_trending rt brand_id "brand" l5 = (log1, inr brand_trends) /\
    arg_qloo_suggestions a = (music_trends ++ movie_trends ++ brand_trends)%list.
Proof.
  intros H. unfold persona_call_arguments in H.
  lift_step H body Hbody.
  lift_step H variation Hvar.
  lift_step H language Hlang.
  lift_step H music_query Hmq.
  step H l1 music_id Hmusic.
  lift_step H movie_query Hvq.
  step H l2 movie_id Hmovie.
  lift_step H brand_query Hbq.
  step H l3 brand_id Hbrand.
  step H l4 music_trends Hmt.
  step H l5 movie_trends Hvt.
  step H l6 brand_trends Hbt.
  lift_step H movies Hmovies.
  lift_step H music Hmusic'.
  lift_step H brands Hbrands.
  lift_step H gender Hgender.
  unfold ret in H. injection H as <- <-.
  cbn [arg_movies arg_music arg_brands arg_gender arg_qloo_suggestions
       arg_language arg_variation_seed].
  rewrite Hmq in Hmusic'. injection Hmusic' as <-.
  rewrite Hvq in Hmovies. injection Hmovies as <-.
  rewrite Hbq in Hbrands. injection Hbrands as <-.
  exists body, music_id, movie_id, brand_id, l1, l2, l3, l4, l5,
    music_trends, movie_trends, brand_trends.
  repeat (split; [assumption || reflexivity |]). reflexivity.
Qed.

Lemma trending_step rt entity_id category log log1 names :
  get_qloo_trending rt entity_id category log = (log1, inr names) ->
  log1 = (trending_request rt log entity_id category ++ log)%list.
Proof.
  intros H. unfold trending_request.
  destruct (get_qloo_trending_inv _ _ _ _ _ _ H) as [[Ht [-> _]] | [Ht ->]];
    rewrite Ht; reflexivity.
Qed.

Lemma trending_request_length rt log entity_id category :
  (List.length (trending_request rt log entity_id category) <= 1)%nat.
Proof.
  unfold trending_request. destruct (truthy entity_id); cbn [List.length]; lia.
Qed.

(** X8.  A successful request makes its calls in one fixed order, each at
    most once: the autocomplete request for music, for movies, for brands
    (each a string), then, for each identifier the resolver returned that
    is truthy, the trending request for it (artist, movie, brand), then the
    persona completion, then the country completion, both written for the
    same display language: eight calls at most.  The log is newest
    first. *)
Theorem calls_of_a_successful_request rt request_json log log1 (p : payload) :
  analyze_profile rt request_json log = (log1, inr p) ->
  exists music movies brands music_id movie_id brand_id lang a t,
    let key := getenv rt "QLOO_API_KEY" in
    let l1 := RequestsGet (autocomplete_url rt music) key :: log in
    let l2 := RequestsGet (autocomplete_url rt movies) key :: l1 in
    let l3 := RequestsGet (autocomplete_url rt brands) key :: l2 in
    let l4 := (trending_request rt l3 music_id "artist" ++ l3)%list in
    let l5 := (trending_request rt l4 movie_id "movie" ++ l4)%list in
    let l6 := (trending_request rt l5 brand_id "brand" ++ l5)%list in
    arg_music a = JStr music /\
    arg_movies a = JStr movies /\
    arg_brands a = JStr brands /\
    autocomplete_entity rt (JStr music) "artist" log = (l1, inr music_id) /\
    autocomplete_entity rt (JStr movies) "movie" l1 = (l2, inr movie_id) /\
    autocomplete_entity rt (JStr brands) "brand" l2 = (l3, inr brand_id) /\
    log1 = ChatCreate (cultural_request lang sample_countries)
           :: ChatCreate (persona_request rt lang a t) :: l6 /\
    (List.length log1 <= 8 + List.length log)%nat.
Proof.
  intros H.
  destruct (analyze_profile_returns_inv _ _ _ _ _ H) as [l7 [language [parsed [Hs Hi]]]].
  destruct (persona_stage_inv _ _ _ _ _ _ Hs) as [l6 [a [ai [Ha [Hp [_ Hlang]]]]]].
  destruct (call_persona_inv _ _ _ _ _ Hp) as [lang [t [content [Hl [_ [_ [_ [_ Hl7]]]]]]]].
  destruct (insights_stage_inv _ _ _ _ _ _ Hi) as [d [fields [Hg _]]].
  destruct (cultural_map_returns_log rt sample_countries language l7 log1 d)
    as [lang' [Hl' Hlog1]]; [discriminate | exact Hg |].
  rewrite Hlang, Hl in Hl'. injection Hl' as <-.
  destruct (persona_call_arguments_inv _ _ _ _ _ Ha)
    as [body [music_id [movie_id [brand_id [l1 [l2 [l3 [l4 [l5
         [music_trends [movie_trends [brand_trends
           [_ [_ [_ [_ [_ [_ [_ [H1 [H2 [H3 [H4 [H5 [H6 _]]]]]]]]]]]]]]]]]]]]]]]]].
  destruct (autocomplete_entity_inv _ _ _ _ _ _ H1) as [music [Hmusic E1]].
  destruct (autocomplete_entity_inv _ _ _ _ _ _ H2) as [movies [Hmovies E2]].
  destruct (autocomplete_entity_inv _ _ _ _ _ _ H3) as [brands [Hbrands E3]].
  pose proof (trending_step _ _ _ _ _ _ H4) as E4.
  pose proof (trending_step _ _ _ _ _ _ H5) as E5.
  pose proof (trending_step _ _ _ _ _ _ H6) as E6.
  rewrite Hmusic in H1. rewrite Hmovies in H2. rewrite Hbrands in H3.
  subst l1 l2 l3 l4 l5 l6.
  exists music, movies, brands, music_id, movie_id, brand_id, lang, a, t.
  cbv zeta.
  split; [exact Hmusic |]. split; [exact Hmovies |]. split; [exact Hbrands |].
  split; [exact H1 |]. split; [exact H2 |]. split; [exact H3 |].
  split; [rewrite Hlog1, Hl7; reflexivity |].
  rewrite Hlog1, Hl7. cbn [List.length]. rewrite !length_app. cbn [List.length].
  match goal with
  | |- context [List.length (trending_request rt ?l brand_id "brand")] =>
      pose proof (trending_request_length rt l brand_id "brand")
  end.
  match goal with
  | |- context [List.length (trending_request rt ?l movie_id "movie")] =>
      pose proof (trending_request_length rt l movie_id "movie")
  end.
  match goal with
  | |- context [List.length (trending_request rt ?l music_id "artist")] =>
      pose proof (trending_request_length rt l music_id "artist")
  end.
  lia.
Qed.

Lemma calls_of_a_successful_request_witness :
  fst (analyze_profile Demo.talkative (inr (JDict Demo.body)) []) =
  [ ChatCreate (cultural_request "French" sample_countries);
    ChatCreate (persona_request Demo.talkative "French"
                  (Cases.arguments (JStr "fr") (JInt 0) [JStr "Justice"; JStr "Air"])
                  PyFloat.f0_8);
    RequestsGet (trending_url Demo.talkative (date_today Demo.talkative [])
                   (JStr "A1") "artist") (Some "secret");
    RequestsGet (autocomplete_url Demo.talkative "Nike") (Some "secret");
    RequestsGet (autocomplete_url Demo.talkative "Inception") (Some "secret");
    RequestsGet (autocomplete_url Demo.talkative "Daft Punk") (Some "secret") ] /\
  exists music_id movie_id brand_id,
    truthy music_id = true /\ truthy movie_id = false /\ truthy brand_id = false.
Proof.
  split; [vm_compute; reflexivity |].
  destruct (calls_of_a_successful_request Demo.talkative (inr (JDict Demo.body)) []
              (fst (analyze_profile Demo.talkative (inr (JDict Demo.body)) []))
              {| result := Demo.dumps Demo.persona; culturalTwin := JStr "Unknown";
                 countryInsights := [(JStr "France", Demo.france)] |})
    as [music [movies [brands [music_id [movie_id [brand_id [lang [a [t
         [Hm [Hv [Hb [H1 [H2 [H3 _]]]]]]]]]]]]]]].
  - vm_compute. reflexivity.
  - exists (JStr "A1"), (JStr ""), JNull. repeat split.
Defined.




(** X10.  A query that is not a string never reaches the taste graph:
    [quote] raises TypeError before any request is sent, and a request
    whose [music] is not a string ends with status 500 and that message
    without a single outbound call. *)
Theorem non_string_query rt q category log :
  (forall s, q <> JStr s) ->
  autocomplete_entity rt q category log =
    (log, inl (TypeError "quote_from_bytes() expected bytes")) /\
  forall d,
    lookup "music" d = Some q ->
    analyze_profile rt (inr (JDict d)) log =
    (log, inl (HTTPException 500 "Analysis failed: quote_from_bytes() expected bytes")).
Proof.
  intros Hq.
  assert (Ha : autocomplete_entity rt q category log =
               (log, inl (TypeError "quote_from_bytes() expected bytes"))).
  { unfold autocomplete_entity. apply bind_lift_raises.
    destruct q; try reflexivity. exfalso. exact (Hq s eq_refl). }
  split; [exact Ha |].
  intros d Hm. unfold analyze_profile.
  rewrite (try_except_raises _ _ _ log (TypeError "quote_from_bytes() expected bytes"));
    [reflexivity |].
  unfold analyze_profile_body.
  rewrite (bind_lift_ok _ _ _ _ eq_refl).
  rewrite (bind_lift_ok (py_get (JDict d) "variation" (JInt 0)) _ _ _ eq_refl).
  rewrite (bind_lift_ok (py_get (JDict d) "language" (JStr "en")) _ _ _ eq_refl).
  rewrite (bind_lift_ok _ _ _ _ (py_getitem_present _ _ _ Hm)).
  apply bind_raises. unfold autocomplete_entity. apply bind_lift_raises.
  destruct q; try reflexivity. exfalso. exact (Hq s eq_refl).
Qed.

Lemma non_string_query_witness :
  analyze_profile Demo.talkative (inr (JDict Cases.numeric_music_body)) [] =
  ([], inl (HTTPException 500 "Analysis failed: quote_from_bytes() expected bytes")).
Proof.
  destruct (non_string_query Demo.talkative (JInt 5) "artist" []) as [_ H].
  - discriminate.
  - apply H. reflexivity.
Defined.

(** X11.  A request whose body is not a JSON object (or is not JSON at all)
    is answered with status 500 before anything is sent: [body.get] raises
    AttributeError on a list, string, number, boolean or null, and a body
    that fails to decode raises in [request.json()]. *)
Theorem body_must_be_an_object rt log :
  (forall body,
      (forall d, body <> JDict d) ->
      analyze_profile rt (inr body) log =
      (log, inl (HTTPException 500
                   ("Analysis failed: '" ++ type_name body
                      ++ "' object has no attribute 'get'")))) /\
  (forall e,
      analyze_profile rt (inl e) log =
      (log, inl (HTTPException 500 ("Analysis failed: " ++ str_exn e)))).
Proof.
  split.
  - intros body Hb. destruct body; try reflexivity. exfalso. exact (Hb d eq_refl).
  - intros e. reflexivity.
Qed.



(** X13.  A body that carries neither [variation] nor [language] is served
    with seed 0 and code "en": whenever such a request reaches the persona
    call, that call is written in English and sampled at temperature
    0.8. *)
Theorem request_defaults rt d log log1 a :
  lookup "variation" d = None ->
  lookup "language" d = None ->
  persona_call_arguments rt (inr (JDict d)) log = (log1, inr a) ->
  arg_variation_seed a = JInt 0 /\
  arg_language a = JStr "en" /\
  fst (call_persona rt a log1) =
  ChatCreate (persona_request rt "English" a PyFloat.f0_8) :: log1.
Proof.
  intros Hv Hl H.
  destruct (persona_call_arguments_inv _ _ _ _ _ H)
    as [body [music_id [movie_id [brand_id [l1 [l2 [l3 [l4 [l5
         [music_trends [movie_trends [brand_trends
           [Hb [Hvar [Hlang _]]]]]]]]]]]]]]].
  injection Hb as <-. cbn [py_get] in Hvar, Hlang. rewrite Hv in Hvar. rewrite Hl in Hlang.
  injection Hvar as Hvar. injection Hlang as Hlang.
  split; [symmetry; exact Hvar |]. split; [symmetry; exact Hlang |].
  apply persona_sends.
  - rewrite <- Hlang. reflexivity.
  - rewrite <- Hvar. vm_compute. reflexivity.
Qed.

Lemma request_defaults_witness :
  fst (call_persona Demo.talkative
         (Cases.arguments (JStr "en") (JInt 0) [JStr "Justice"; JStr "Air"])
         (fst (persona_call_arguments Demo.talkative (inr (JDict Cases.plain_body)) [])))
  = ChatCreate (persona_request Demo.talkative "English"
                  (Cases.arguments (JStr "en") (JInt 0) [JStr "Justice"; JStr "Air"])
                  PyFloat.f0_8)
    :: fst (persona_call_arguments Demo.talkative (inr (JDict Cases.plain_body)) []).
Proof.
  apply (request_defaults Demo.talkative Cases.plain_body [] _ _ eq_refl eq_refl).
  vm_compute. reflexivity.
Defined.

Lemma body_must_be_an_object_witness :
  analyze_profile Demo.talkative (inr (JList [])) [] =
  ([], inl (HTTPException 500 "Analysis failed: 'list' object has no attribute 'get'")).
Proof.
  destruct (body_must_be_an_object Demo.talkative []) as [H _].
  apply (H (JList [])). discriminate.
Defined.

(** ** The resolver's loop *)

Lemma first_match_malformed before bad after category :
  PyStr.lower category = category ->
  Forall candidate before ->
  Forall (fun c => ~ candidate_matches category c) before ->
  (forall d, bad <> JDict d) ->
  first_match (before ++ bad :: after) category = inl (no_attribute bad "get").
Proof.
  intros Hc Hcand Hno Hbad.
  rewrite (first_match_skips _ _ _ Hc Hcand Hno).
  destruct bad; try reflexivity. exfalso. exact (Hbad d eq_refl).
Qed.

Lemma first_match_bad_type before d t after category :
  PyStr.lower category = category ->
  Forall candidate before ->
  Forall (fun c => ~ candidate_matches category c) before ->
  lookup "type" d = Some t ->
  (forall s, t <> JStr s) ->
  first_match (before ++ JDict d :: after) category = inl (no_attribute t "lower").
Proof.
  intros Hc Hcand Hno Ht Hbad.
  rewrite (first_match_skips _ _ _ Hc Hcand Hno).
  cbn [first_match py_get rbind]. rewrite Ht.
  destruct t; try reflexivity. exfalso. exact (Hbad s eq_refl).
Qed.

Lemma first_match_stops before r after category :
  PyStr.lower category = category ->
  Forall candidate before ->
  Forall (fun c => ~ candidate_matches category c) before ->
  candidate r ->
  candidate_matches category r ->
  first_match (before ++ r :: after) category = inr (identifier r).
Proof.
  intros Hc Hcand Hno Hr Hm.
  rewrite (first_match_skips _ _ _ Hc Hcand Hno), (first_match_candidate _ _ _ Hr).
  apply (contains_lower_spec _ _ Hc) in Hm. rewrite Hm. reflexivity.
Qed.

(** X14.  The Entity Resolver reads the candidates only up to the first
    match.  What follows the match is never inspected, so entries there
    that are no objects do no harm; an entry before the match that is no
    object, or whose type is no string, makes the resolver raise
    AttributeError instead of skipping it. *)
Theorem resolver_reads_up_to_the_match
    rt query category log response data before x after :
  PyStr.lower category = category ->
  requests_get rt log (autocomplete_url rt query) (getenv rt "QLOO_API_KEY") = inr response ->
  status_code response = 200 ->
  response_json rt response = inr (JDict data) ->
  py_get (JDict data) "results" (JList []) = inr (JList (before ++ x :: after)) ->
  Forall candidate before ->
  Forall (fun c => ~ candidate_matches category c) before ->
  (candidate x -> candidate_matches category x ->
   snd (autocomplete_entity rt (JStr query) category log) = inr (identifier x)) /\
  ((forall d, x <> JDict d) ->
   snd (autocomplete_entity rt (JStr query) category log) = inl (no_attribute x "get")) /\
  (forall d t, x = JDict d -> lookup "type" d = Some t -> (forall s, t <> JStr s) ->
   snd (autocomplete_entity rt (JStr query) category log) = inl (no_attribute t "lower")).
Proof.
  intros Hc Hget Hs Hjson Hres Hcand Hno.
  rewrite (autocomplete_entity_run _ _ _ _ _ Hget), Hs, Z.eqb_refl, Hjson.
  cbn [snd rbind]. rewrite Hres. cbn [rbind py_iter].
  split; [| split].
  - intros Hx Hm. apply first_match_stops; assumption.
  - intros Hx. apply first_match_malformed; assumption.
  - intros d t -> Ht Hbad. apply first_match_bad_type; assumption.
Qed.

Lemma resolver_reads_up_to_the_match_witness :
  first_match
    [ JDict [("type", JStr "urn:entity:place")];
      JDict [("type", JStr "urn:entity:Artist"); ("id", JStr "A1")];
      JInt 7; JNull ] "artist" = inr (JStr "A1") /\
  snd (autocomplete_entity Demo.talkative (JStr "Daft Punk") "artist" []) = inr (JStr "A1").
Proof.
  split; [reflexivity |].
  destruct (resolver_reads_up_to_the_match Demo.talkative "Daft Punk" "artist" []
              {| status_code := 200; text := Demo.dumps Demo.artist_candidates |}
              [("results",
                JList [ JDict [("type", JStr "urn:entity:place"); ("id", JStr "P0")];
                        JDict [("type", JStr "urn:entity:Artist"); ("id", JStr "A1")];
                        JDict [("type", JStr "urn:entity:artist"); ("id", JStr "A2")] ])]
              [ JDict [("type", JStr "urn:entity:place"); ("id", JStr "P0")] ]
              (JDict [("type", JStr "urn:entity:Artist"); ("id", JStr "A1")])
              [ JDict [("type", JStr "urn:entity:artist"); ("id", JStr "A2")] ]
              eq_refl eq_refl eq_refl eq_refl eq_refl) as [H _].
  - repeat constructor. eapply candidate_dict_with_type; reflexivity.
  - constructor; [| constructor]. apply not_matching; reflexivity.
  - rewrite H.
    + reflexivity.
    + eapply candidate_dict_with_type; reflexivity.
    + apply contains_lower_spec; reflexivity.
Defined.

Lemma lower_char_idempotent c : PyStr.lower_char (PyStr.lower_char c) = PyStr.lower_char c.
Proof. destruct c as [[] [] [] [] [] [] [] []]; reflexivity. Qed.

Lemma lower_idempotent s : PyStr.lower (PyStr.lower s) = PyStr.lower s.
Proof.
  induction s as [| c s IH]; [reflexivity |].
  cbn [PyStr.lower]. rewrite lower_char_idempotent, IH. reflexivity.
Qed.

Lemma lower_prefix_cancel a x y :
  (a ++ x = PyStr.lower a ++ y)%string -> x = y.
Proof.
  induction a as [| c a IH]; cbn [append PyStr.lower]; intros H; [exact H |].
  injection H as _ H. exact (IH H).
Qed.

Lemma lower_prefix_fixed c x y :
  (c ++ x = PyStr.lower c ++ y)%string -> PyStr.lower c = c.
Proof.
  induction c as [| ch c IH]; cbn [append PyStr.lower]; intros H; [reflexivity |].
  injection H as Hch H. rewrite <- Hch, (IH H). reflexivity.
Qed.

(** Only what is written in lower case can be found in a lowered string. *)
Lemma contained_in_lowered c t :
  PyStr.contains c (PyStr.lower t) = true -> PyStr.lower c = c.
Proof.
  intros H. apply contains_spec in H. destruct H as [a [b H]].
  pose proof (lower_idempotent t) as Hi. rewrite H in Hi.
  rewrite !lower_app in Hi. symmetry in Hi.
  apply lower_prefix_cancel in Hi. exact (lower_prefix_fixed _ _ _ Hi).
Qed.

Lemma first_match_capitalised rs category :
  PyStr.lower category <> category ->
  Forall candidate rs ->
  first_match rs category = inr JNull.
Proof.
  intros Hc Hcand. induction Hcand as [| r rs Hr _ IH]; [reflexivity |].
  rewrite (first_match_candidate _ _ _ Hr).
  destruct (PyStr.contains category (PyStr.lower (reported_type r))) eqn:E; [| exact IH].
  exfalso. apply Hc. exact (contained_in_lowered _ _ E).
Qed.

(** X15.  Only the candidate's type is lowered, not the category.  A
    category that has an upper-case ASCII letter therefore matches no
    candidate at all: the resolver returns None whatever the provider
    lists, even a candidate whose type is the category letter for letter. *)
Theorem capitalised_category_never_matches rt query category log response data rs :
  PyStr.lower category <> category ->
  requests_get rt log (autocomplete_url rt query) (getenv rt "QLOO_API_KEY") = inr response ->
  status_code response = 200 ->
  response_json rt response = inr (JDict data) ->
  py_get (JDict data) "results" (JList []) = inr (JList rs) ->
  Forall candidate rs ->
  autocomplete_entity rt (JStr query) category log =
  (RequestsGet (autocomplete_url rt query) (getenv rt "QLOO_API_KEY") :: log, inr JNull).
Proof.
  intros Hc Hget Hs Hjson Hres Hcand.
  rewrite (autocomplete_entity_run _ _ _ _ _ Hget), Hs, Z.eqb_refl, Hjson.
  cbn [rbind]. rewrite Hres. cbn [rbind py_iter].
  rewrite (first_match_capitalised _ _ Hc Hcand). reflexivity.
Qed.

Lemma capitalised_category_never_matches_witness :
  snd (autocomplete_entity Demo.talkative (JStr "Daft Punk") "Artist" []) = inr JNull.
Proof.
  rewrite (capitalised_category_never_matches Demo.talkative "Daft Punk" "Artist" []
             {| status_code := 200; text := Demo.dumps Demo.artist_candidates |}
             [("results",
               JList [ JDict [("type", JStr "urn:entity:place"); ("id", JStr "P0")];
                       JDict [("type", JStr "urn:entity:Artist"); ("id", JStr "A1")];
                       JDict [("type", JStr "urn:entity:artist"); ("id", JStr "A2")] ])]
             [ JDict [("type", JStr "urn:entity:place"); ("id", JStr "P0")];
               JDict [("type", JStr "urn:entity:Artist"); ("id", JStr "A1")];
               JDict [("type", JStr "urn:entity:artist"); ("id", JStr "A2")] ]).
  - reflexivity.
  - discriminate.
  - reflexivity.
  - reflexivity.
  - reflexivity.
  - reflexivity.
  - repeat constructor; eapply candidate_dict_with_type; reflexivity.
Defined.

(** ** What the prompts say *)

Lemma contains_skip_char p c s :
  PyStr.contains p s = true -> PyStr.contains p (String c s) = true.
Proof. intros H. cbn [PyStr.contains]. rewrite H. apply orb_true_r. Qed.

Lemma contains_skip_app p a s :
  PyStr.contains p s = true -> PyStr.contains p (a ++ s) = true.
Proof.
  intros H. induction a as [| c a IH]; [exact H |].
  cbn [append]. apply contains_skip_char. exact IH.
Qed.

Ltac spell_out :=
  unfold persona_request, cultural_request, persona_prompt, cultural_prompt,
    unlines, newline, PyStr.join;
  cbn [prompt String.concat];
  rewrite ?append_assoc; cbn [append].

Ltac found_here :=
  apply contains_spec; exists EmptyString; eexists;
  cbn [append]; rewrite ?append_assoc; cbn [append]; reflexivity.

Ltac find_text :=
  lazymatch goal with
  | |- PyStr.contains (String ?c _) (String ?c _) = true =>
      first [ found_here | apply contains_skip_char; find_text ]
  | |- PyStr.contains _ (String _ _) = true =>
      apply contains_skip_char; find_text
  | |- PyStr.contains _ (_ ++ _)%string = true =>
      first [ found_here | apply contains_skip_app; find_text ]
  end.

(** X16.  Every prompt the module sends tells the model, in so many words,
    to respond entirely in the display language it was built for; the
    persona prompt carries the user's movies as given and, for an empty
    suggestion list, the words "None available"; the country prompt of the
    handler lists the four countries joined by ", ". *)
Theorem prompts_say rt lang a t countries :
  let instruction := ("You MUST respond ENTIRELY in " ++ lang ++ " language.")%string in
  PyStr.contains instruction (prompt (persona_request rt lang a t)) = true /\
  PyStr.contains instruction (prompt (cultural_request lang countries)) = true /\
  PyStr.contains ("- Favorite Movies: " ++ format_value rt (arg_movies a) ++ newline)
    (prompt (persona_request rt lang a t)) = true /\
  (arg_qloo_suggestions a = [] ->
   PyStr.contains ("- Qloo cultural suggestions: None available" ++ newline)
     (prompt (persona_request rt lang a t)) = true) /\
  PyStr.contains ("Countries: USA, South Korea, UK, Japan" ++ newline)
    (prompt (cultural_request lang sample_countries)) = true.
Proof.
  intros instruction. subst instruction.
  split; [spell_out; find_text |].
  split; [spell_out; find_text |].
  split; [spell_out; find_text |].
  split.
  { intros H. unfold persona_request. cbn [prompt]. rewrite H. cbn [truthy].
    spell_out. find_text. }
  unfold sample_countries. spell_out. find_text.
Qed.

Lemma prompts_say_witness :
  PyStr.contains ("- Qloo cultural suggestions: None available" ++ newline)
    (prompt (persona_request Demo.disconnected "French"
               (Cases.arguments (JStr "fr") (JInt 0) []) PyFloat.f0_8)) = true.
Proof.
  destruct (prompts_say Demo.disconnected "French"
              (Cases.arguments (JStr "fr") (JInt 0) []) PyFloat.f0_8 sample_countries)
    as [_ [_ [_ [H _]]]].
  apply H. reflexivity.
Defined.

(** ** Escaping the query *)

Lemma all_chars_app p a b :
  all_chars p (a ++ b) = (all_chars p a && all_chars p b)%bool.
Proof.
  induction a as [| c a IH]; [reflexivity |].
  cbn [append all_chars]. rewrite IH. apply andb_assoc.
Qed.

Lemma all_chars_excludes p s c :
  all_chars p s = true -> p c = false -> PyStr.contains (String c EmptyString) s = false.
Proof.
  intros Hall Hc. induction s as [| c' s IH]; [reflexivity |].
  cbn [all_chars] in Hall. apply andb_true_iff in Hall. destruct Hall as [Hc' Hs].
  cbn [PyStr.contains PyStr.prefixb]. rewrite (IH Hs), orb_false_r, andb_true_r.
  destruct (Ascii.eqb_spec c c') as [<- | _]; [| reflexivity].
  rewrite Hc in Hc'. discriminate Hc'.
Qed.

Lemma quote_char_safe c s :
  all_chars url_safe (PyStr.quote s) = true ->
  all_chars url_safe (PyStr.quote (String c s)) = true.
Proof.
  intros H. cbn [PyStr.quote].
  destruct c as [[] [] [] [] [] [] [] []];
    cbv beta iota delta [PyStr.always_safe PyStr.in_range nat_of_ascii N_of_ascii
                         N_of_digits N.to_nat Pos.to_nat Pos.iter_op Nat.add
                         N.add N.mul Pos.add Pos.succ Pos.mul Nat.leb Nat.div
                         Nat.modulo Nat.divmod fst snd Nat.sub
                         andb orb Ascii.eqb Bool.eqb PyStr.hex_digit String.get];
    cbn [all_chars]; rewrite H; reflexivity.
Qed.

Lemma quote_safe s : all_chars url_safe (PyStr.quote s) = true.
Proof.
  induction s as [| c s IH]; [reflexivity |]. apply quote_char_safe. exact IH.
Qed.

Lemma quote_keeps_safe_text s :
  all_chars (fun c => (PyStr.always_safe c || Ascii.eqb c "/")%bool) s = true ->
  PyStr.quote s = s.
Proof.
  induction s as [| c s IH]; [reflexivity |].
  cbn [all_chars PyStr.quote]. intros H. apply andb_true_iff in H.
  destruct H as [Hc Hs]. rewrite Hc, (IH Hs). reflexivity.
Qed.

(** X17.  The query is escaped before it enters the autocomplete URL: what
    [quote] returns is made of letters, digits and the characters
    [_ . - ~ / %] only, so it holds no space, [&], [=], [?], [#] or [+]
    that could end the parameter or start another; text made of unreserved
    characters and slashes is passed as it is. *)
Theorem query_is_escaped (query : string) :
  all_chars url_safe (PyStr.quote query) = true /\
  (forall c, In c [" "; "&"; "="; "?"; "#"; "+"]%char ->
     PyStr.contains (String c EmptyString) (PyStr.quote query) = false) /\
  (all_chars (fun c => (PyStr.always_safe c || Ascii.eqb c "/")%bool) query = true ->
   PyStr.quote query = query) /\
  forall rt log category,
    fst (autocomplete_entity rt (JStr query) category log) =
    RequestsGet (format_env (getenv rt "QLOO_API_URL") ++ "/v1/autocomplete?query="
                   ++ PyStr.quote query)
                (getenv rt "QLOO_API_KEY") :: log.
Proof.
  split; [apply quote_safe |].
  split.
  { intros c Hc. apply (all_chars_excludes url_safe); [apply quote_safe |].
    simpl in Hc. destruct Hc as [<- | [<- | [<- | [<- | [<- | [<- | []]]]]]]; reflexivity. }
  split; [apply quote_keeps_safe_text |].
  intros rt log category. unfold autocomplete_entity, bind, lift, http_get, py_quote.
  destruct (requests_get rt log _ _) as [e | response]; [reflexivity |].
  destruct (status_code response =? 200); reflexivity.
Qed.

(** ** Failures of the taste graph that do reach the caller *)

Lemma analyze_profile_fails_early rt request_json log l e :
  persona_call_arguments rt request_json log = (l, inl e) ->
  analyze_profile rt request_json log =
  (l, inl (HTTPException 500 ("Analysis failed: " ++ str_exn e))).
Proof.
  intros H. unfold analyze_profile.
  rewrite (try_except_raises _ _ _ l e); [reflexivity |].
  rewrite analyze_profile_body_stages. unfold persona_stage.
  apply bind_raises. apply bind_raises. exact H.
Qed.

Lemma autocomplete_entity_raises rt query category log e :
  (requests_get rt log (autocomplete_url rt query) (getenv rt "QLOO_API_KEY") = inl e \/
   exists response,
     requests_get rt log (autocomplete_url rt query) (getenv rt "QLOO_API_KEY")
       = inr response /\
     status_code response = 200 /\ response_json rt response = inl e) ->
  autocomplete_entity rt (JStr query) category log =
  (RequestsGet (autocomplete_url rt query) (getenv rt "QLOO_API_KEY") :: log, inl e).
Proof.
  intros [Hget | [response [Hget [Hs Hjson]]]].
  - unfold autocomplete_entity, bind, lift, http_get, py_quote.
    fold (autocomplete_url rt query). rewrite Hget. reflexivity.
  - rewrite (autocomplete_entity_run _ _ _ _ _ Hget), Hs, Z.eqb_refl, Hjson.
    reflexivity.
Qed.

Lemma get_qloo_trending_raises rt entity_id category log e :
  truthy entity_id = true ->
  let url := trending_url rt (date_today rt log) entity_id category in
  (requests_get rt log url (getenv rt "QLOO_API_KEY") = inl e \/
   exists response,
     requests_get rt log url (getenv rt "QLOO_API_KEY") = inr response /\
     status_code response = 200 /\ response_json rt response = inl e) ->
  get_qloo_trending rt entity_id category log =
  (RequestsGet url (getenv rt "QLOO_API_KEY") :: log, inl e).
Proof.
  intros Ht url [Hget | [response [Hget [Hs Hjson]]]].
  - subst url.
    unfold get_qloo_trending, bind, lift, http_get, today, trending_url in *.
    rewrite Ht. cbn beta iota zeta delta [negb] in *. rewrite Hget. reflexivity.
  - rewrite (get_qloo_trending_run _ _ _ _ _ Ht Hget), Hs, Z.eqb_refl, Hjson.
    reflexivity.
Qed.

(** X18.  Only a status other than 200 is absorbed.  When [requests.get]
    itself raises, or a 200 response does not decode, neither the Entity
    Resolver nor the Trend Fetcher catches the exception, and whatever
    either of them raises ends the request with status 500 and its message:
    so for the first resolver call, right after that single request, and
    so for the first trend lookup once the three identifiers are
    resolved. *)
Theorem taste_graph_exceptions_surface rt query category entity_id log e :
  let key := getenv rt "QLOO_API_KEY" in
  let url := autocomplete_url rt query in
  let turl := trending_url rt (date_today rt log) entity_id category in
  ((requests_get rt log url key = inl e \/
    exists response,
      requests_get rt log url key = inr response /\
      status_code response = 200 /\ response_json rt response = inl e) ->
   autocomplete_entity rt (JStr query) category log = (RequestsGet url key :: log, inl e) /\
   forall d,
     lookup "music" d = Some (JStr query) ->
     category = "artist" ->
     analyze_profile rt (inr (JDict d)) log =
     (RequestsGet url key :: log,
      inl (HTTPException 500 ("Analysis failed: " ++ str_exn e)))) /\
  (truthy entity_id = true ->
   (requests_get rt log turl key = inl e \/
    exists response,
      requests_get rt log turl key = inr response /\
      status_code response = 200 /\ response_json rt response = inl e) ->
   get_qloo_trending rt entity_id category log = (RequestsGet turl key :: log, inl e) /\
   forall d log0 l1 l2 q1 q2 q3 movie_id brand_id,
     lookup "music" d = Some q1 ->
     lookup "movies" d = Some q2 ->
     lookup "brands" d = Some q3 ->
     autocomplete_entity rt q1 "artist" log0 = (l1, inr entity_id) ->
     autocomplete_entity rt q2 "movie" l1 = (l2, inr movie_id) ->
     autocomplete_entity rt q3 "brand" l2 = (log, inr brand_id) ->
     category = "artist" ->
     analyze_profile rt (inr (JDict d)) log0 =
     (RequestsGet turl key :: log,
      inl (HTTPException 500 ("Analysis failed: " ++ str_exn e)))) /\
  (forall request_json log0 l,
      persona_call_arguments rt request_json log0 = (l, inl e) ->
      analyze_profile rt request_json log0 =
      (l, inl (HTTPException 500 ("Analysis failed: " ++ str_exn e)))).
Proof.
  intros key url turl. split; [| split].
  - intros Hfail.
    pose proof (fun c => autocomplete_entity_raises rt query c log e Hfail) as Ha.
    split; [apply Ha |].
    intros d Hm ->. apply analyze_profile_fails_early.
    unfold persona_call_arguments.
    rewrite (bind_lift_ok _ _ _ _ eq_refl).
    rewrite (bind_lift_ok (py_get (JDict d) "variation" (JInt 0)) _ _ _ eq_refl).
    rewrite (bind_lift_ok (py_get (JDict d) "language" (JStr "en")) _ _ _ eq_refl).
    rewrite (bind_lift_ok _ _ _ _ (py_getitem_present _ _ _ Hm)).
    apply bind_raises. apply Ha.
  - intros Ht Hfail.
    pose proof (get_qloo_trending_raises rt entity_id category log e Ht Hfail) as Hg.
    split; [exact Hg |].
    intros d log0 l1 l2 q1 q2 q3 movie_id brand_id E1 E2 E3 H1 H2 H3 Hc.
    subst category. apply analyze_profile_fails_early.
    unfold persona_call_arguments.
    rewrite (bind_lift_ok _ _ _ _ eq_refl).
    rewrite (bind_lift_ok (py_get (JDict d) "variation" (JInt 0)) _ _ _ eq_refl).
    rewrite (bind_lift_ok (py_get (JDict d) "language" (JStr "en")) _ _ _ eq_refl).
    rewrite (bind_lift_ok _ _ _ _ (py_getitem_present _ _ _ E1)).
    rewrite (bind_ok _ _ _ _ _ H1).
    rewrite (bind_lift_ok _ _ _ _ (py_getitem_present _ _ _ E2)).
    rewrite (bind_ok _ _ _ _ _ H2).
    rewrite (bind_lift_ok _ _ _ _ (py_getitem_present _ _ _ E3)).
    rewrite (bind_ok _ _ _ _ _ H3).
    apply bind_raises. exact Hg.
  - intros request_json log0 l H. apply analyze_profile_fails_early. exact H.
Qed.

(** ** The cap, for every kind of seed *)

(** X19.  Whatever the seed is (an integer, a boolean, a float, infinite
    ones included), a temperature that is computed is never greater than
    2.0.  The cap is a comparison, though, and lets the one value through
    that compares with nothing: a NaN seed gives a NaN temperature. *)
Theorem temperature_never_above_cap (variation_seed : json) (t : PyFloat.float) :
  capped_temperature variation_seed = inr t ->
  PyFloat.ltb PyFloat.f2_0 t = false /\
  (variation_seed = JFloat S754_nan -> t = S754_nan) /\
  (variation_seed = JFloat (S754_infinity false) -> t = PyFloat.f2_0) /\
  (variation_seed = JBool true ->
   capped_temperature (JInt 1) = inr t).
Proof.
  unfold capped_temperature. intros H.
  apply rbind_returns_inv in H. destruct H as [scaled [Hs H]].
  injection H as <-. split; [apply min_never_above; reflexivity |].
  split; [| split]; intros ->; cbn in Hs.
  - injection Hs as <-. reflexivity.
  - injection Hs as <-. reflexivity.
  - injection Hs as <-. reflexivity.
Qed.

Lemma temperature_never_above_cap_witness :
  capped_temperature (JFloat (S754_infinity false)) = inr PyFloat.f2_0 /\
  PyFloat.ltb PyFloat.f2_0 PyFloat.f2_0 = false.
Proof.
  split; [reflexivity |].
  destruct (temperature_never_above_cap (JFloat (S754_infinity false)) PyFloat.f2_0 eq_refl)
    as [H _].
  exact H.
Defined.

Lemma taste_graph_exceptions_surface_witness :
  analyze_profile
    (Cases.runtime_with (fun _ _ _ => inl (LibraryError "Connection refused"))
       (Demo.completions None None))
    (inr (JDict Demo.body)) [] =
  ([RequestsGet "https://qloo.example/v1/autocomplete?query=Daft%20Punk" (Some "secret")],
   inl (HTTPException 500 "Analysis failed: Connection refused")).
Proof.
  destruct (taste_graph_exceptions_surface
              (Cases.runtime_with (fun _ _ _ => inl (LibraryError "Connection refused"))
                 (Demo.completions None None))
              "Daft Punk" "artist" JNull [] (LibraryError "Connection refused"))
    as [H _].
  destruct (H (or_introl eq_refl)) as [_ Hreq].
  exact (Hreq Demo.body eq_refl eq_refl).
Defined.
